(** * pypes: acquisition parameters for FSL eddy, workflow wiring and running

    A shallow embedding of the parts of [pypes/dti.py], [pypes/run.py] and
    [pypes/input_files.py] that carry logic of their own, and the properties
    the specification states about them.

    Python values are modelled as follows.
    - [str] is [string]; [s.split(sep)] and [s.split(sep, n)] are [py_split].
    - [dict] with string keys and values is [gmap string string]; building a
      dict from a sequence of pairs inserts from left to right, so a later
      pair overrides an earlier one with the same key.
    - an exception is a value of [Exn]; a function that may raise returns
      [Exn + A], and one that also writes files threads the files of the
      working directory ([gmap string string], name to content).
    - [float] is IEEE binary64, the kernel's primitive [float]. *)

From Stdlib Require Import ZArith List String Ascii Lia PrimFloat Uint63.
From stdpp Require Import base option list gmap strings pretty relations.

Set Default Proof Using "Type".
Open Scope string_scope.

(** ** Exceptions and the two monads *)

Inductive Exn : Type :=
| ValueError (msg : string)
| KeyError (key : string)
| TypeError (msg : string)
| AttributeError (msg : string)
| IOError (msg : string)
| Exception (msg : string)
| UnresolvedBoundaryPortError (matches : nat)
| LibraryError (kind msg : string).

(** Computations that may raise. *)
Definition Result (A : Type) : Type := Exn + A.

Definition rbind {A B} (r : Result A) (k : A -> Result B) : Result B :=
  match r with
  | inl e => inl e
  | inr a => k a
  end.

Declare Scope result_scope.
Delimit Scope result_scope with result.
Notation "x <~ m ;; k" := (rbind m (fun x => k))
  (at level 100, m at next level, right associativity) : result_scope.
Notation "m ;; k" := (rbind m (fun _ => k))
  (at level 100, right associativity) : result_scope.

(** Files of the current working directory, by name. *)
Abbreviation Files := (gmap string string).

(** Computations that may raise and may write files.  What was written
    before an exception stays written. *)
Definition IO (A : Type) : Type := Files -> Files * Result A.

Definition io_ret {A} (a : A) : IO A := fun fs => (fs, inr a).

Definition io_bind {A B} (m : IO A) (k : A -> IO B) : IO B :=
  fun fs =>
    match m fs with
    | (fs', inl e) => (fs', inl e)
    | (fs', inr a) => k a fs'
    end.

Definition io_lift {A} (r : Result A) : IO A := fun fs => (fs, r).

(** [with open(name, "wt") as fout: fout.write(content)]: the file is
    created or truncated, then holds [content].  The working directory is
    taken to be one the program can write to, so that [open] and [write]
    raise nothing: what is proved of a run that fails is proved of a failure
    of the data, and nothing is stated of a disk that refuses the files. *)
Definition write_text (name content : string) : IO unit :=
  fun fs => (<[name := content]> fs, inr tt).

Declare Scope io_scope.
Delimit Scope io_scope with io.
Notation "x <~ m ;; k" := (io_bind m (fun x => k))
  (at level 100, m at next level, right associativity) : io_scope.
Notation "m ;; k" := (io_bind m (fun _ => k))
  (at level 100, right associativity) : io_scope.

(** ** Strings *)

Definition can_split (maxsplit : option nat) : bool :=
  match maxsplit with
  | Some 0 => false
  | _ => true
  end.

Definition after_split (maxsplit : option nat) : option nat :=
  match maxsplit with
  | Some n => Some (Nat.pred n)
  | None => None
  end.

(** The first piece and the remaining pieces of [s.split(sep, maxsplit)]. *)
Fixpoint split_pieces (sep : ascii) (maxsplit : option nat) (s : string)
  : string * list string :=
  match s with
  | EmptyString => (EmptyString, [])
  | String c r =>
      if Ascii.eqb c sep && can_split maxsplit then
        let p := split_pieces sep (after_split maxsplit) r in
        (EmptyString, fst p :: snd p)
      else
        let p := split_pieces sep maxsplit r in
        (String c (fst p), snd p)
  end.

(** [s.split(sep)] is [py_split sep None s]; [s.split(sep, n)] is
    [py_split sep (Some n) s].  The separator is one character, as at every
    call in the sources. *)
Definition py_split (sep : ascii) (maxsplit : option nat) (s : string)
  : list string :=
  let p := split_pieces sep maxsplit s in fst p :: snd p.

Definition newline : string := String "010"%char EmptyString.

(** [sep.join(parts)] *)
Fixpoint py_join (sep : string) (parts : list string) : string :=
  match parts with
  | [] => ""
  | [p] => p
  | p :: rest => p +:+ sep +:+ py_join sep rest
  end.

(** [c in s] for a character [c]. *)
Fixpoint has_char (c : ascii) (s : string) : bool :=
  match s with
  | EmptyString => false
  | String a r => Ascii.eqb a c || has_char c r
  end.

(** The blank-separated tokens of a line: the non-empty pieces between
    spaces, the line's final newline dropped. *)
Definition drop_newline (s : string) : string :=
  match py_split "010"%char None s with
  | l :: _ => l
  | [] => s
  end.

Definition nonempty (s : string) : bool :=
  match s with
  | EmptyString => false
  | _ => true
  end.

Definition tokens (line : string) : list string :=
  List.filter nonempty (py_split " "%char None (drop_newline line)).

(** ** dict *)

(** [dict(items)] for a list of lists: every element must have exactly two
    members, key and value; the first element that has not raises
    [ValueError].  Insertion runs left to right. *)
Fixpoint dict_update (i : nat) (d : gmap string string)
  (items : list (list string)) : Result (gmap string string) :=
  match items with
  | [] => inr d
  | [k; v] :: rest => dict_update (S i) (<[k := v]> d) rest
  | item :: _ =>
      inl (ValueError ("dictionary update sequence element #" +:+ pretty i
                       +:+ " has length " +:+ pretty (length item)
                       +:+ "; 2 is required"))
  end.

Definition py_dict (items : list (list string)) : Result (gmap string string) :=
  dict_update 0 ∅ items.

(** ["{}".format(d.get(key))]: the value, or [None] printed. *)
Definition format_get (d : gmap string string) (key : string) : string :=
  match d !! key with
  | Some v => v
  | None => "None"
  end.

(** [d[key]] *)
Definition py_getitem (d : gmap string string) (key : string) : Result string :=
  match d !! key with
  | Some v => inr v
  | None => inl (KeyError key)
  end.

(** ** The image and the Python runtime *)

(** What [write_acquisition_parameters] reads of a loaded image: its shape
    and the text of the header's [descrip] field.  nibabel never gives an
    image the empty shape, so the shape is held as its leading dimensions and
    its last one, [image.shape[-1]]. *)
Record Image : Type := mkImage {
  shape_init : list nat;
  shape_last : nat;
  descrip : string
}.

Definition shape (image : Image) : list nat :=
  app (shape_init image) [shape_last image].

(** The library functions the code calls and does not define. *)
Class PyRuntime : Type := {
  (** [nibabel.load(path)] *)
  nibabel_load : string -> Result Image;
  (** [float(s)]; [None] where Python raises [ValueError] *)
  py_float : string -> option float;
  (** [repr(s)], as it appears in the message of that [ValueError] *)
  py_repr : string -> string;
  (** ["{}".format(x)] for a float [x] *)
  py_str_float : float -> string;
  (** [os.path.abspath(name)] *)
  abspath : string -> string
}.

Definition float_of_str `{PyRuntime} (s : string) : Result float :=
  match py_float s with
  | Some x => inr x
  | None => inl (ValueError ("could not convert string to float: " +:+ py_repr s))
  end.

(** An [int] used where a float is expected; exact below 2^53. *)
Definition float_of_int (z : Z) : float := PrimFloat.of_uint63 (Uint63.of_Z z).

(** The literal [1e-3]: the binary64 number nearest to 0.001. *)
Definition milli : float := 0x1.0624dd2f1a9fcp-10%float.

(** ** dti.py: write_acquisition_parameters *)

Definition acqp_file : string := "diff.acqp".
Definition index_file : string := "diff.index".

(** Siemens standard *)
Definition epi_factor : Z := 128.

(** Line 128:
    [dict([item.split("=", 1) for item in header["descrip"][()].split(";")])] *)
Definition parse_descrip (text : string) : Result (gmap string string) :=
  py_dict (map (py_split "="%char (Some 1)) (py_split ";"%char None text)).

(** Lines 130-135 *)
Definition phase_encoding_axis (d : gmap string string) : Result string :=
  if decide (d !! "phaseDir" = Some "+") then inr "0 1 0"
  else if decide (d !! "phaseDir" = Some "-") then inr "0 -1 0"
  else inl (ValueError ("unexpected value for phaseDir: " +:+ format_get d "phaseDir")).

(** Line 140 *)
Definition total_readout_time `{PyRuntime} (d : gmap string string) : Result float :=
  rbind (py_getitem d "dwell") (fun v =>
  rbind (float_of_str v) (fun dwell =>
  inr (float_of_int (epi_factor - 1) * dwell * milli)%float)).

Definition write_acquisition_parameters `{PyRuntime} (in_file : string)
  : IO (string * string) :=
  (image <~ io_lift (nibabel_load in_file) ;;
   let n_directions := shape_last image in
   d <~ io_lift (parse_descrip (descrip image)) ;;
   pe_axis <~ io_lift (phase_encoding_axis d) ;;
   trt <~ io_lift (total_readout_time d) ;;
   write_text acqp_file (pe_axis +:+ " " +:+ py_str_float trt +:+ newline) ;;
   write_text index_file (py_join " " (replicate n_directions "1") +:+ newline) ;;
   io_ret (abspath acqp_file, abspath index_file))%io.

(** ** A runtime to compute with

    Some stored images and a [float] that reads the dwell strings they
    carry; enough to run the function on concrete inputs. *)

Definition sample_images : list (string * Image) :=
  [ ("dwi.nii.gz", mkImage [96; 96; 60] 30 "phaseDir=+;dwell=0.39");
    ("neg.nii.gz", mkImage [96; 96; 60] 3 "phaseDir=-;dwell=0.75");
    ("row.nii.gz", mkImage [96; 96; 60] 30 "phaseDir=?;dwell=0.39");
    ("nodir.nii.gz", mkImage [96; 96; 60] 30 "dwell=0.39");
    ("text.nii.gz", mkImage [96; 96; 60] 30 "phaseDir=+;dwell=fast");
    ("nodwell.nii.gz", mkImage [96; 96; 60] 30 "phaseDir=+");
    ("bare.nii.gz", mkImage [96; 96; 60] 30 "phaseDir=+;dwell=0.39;") ].

Definition sample_load (path : string) : Result Image :=
  match list_find (fun p => path = fst p) sample_images with
  | Some (_, (_, image)) => inr image
  | None => inl (LibraryError "FileNotFoundError" path)
  end.

Definition sample_float (s : string) : option float :=
  if decide (s = "0.39") then Some 0x1.8f5c28f5c28f6p-2%float
  else if decide (s = "0.75") then Some 0.75%float
  else None.

Definition sample_str_float (x : float) : string :=
  if (x =? 0x1.95bff04577d96p-5)%float then "0.049530000000000005"
  else if (x =? 0x1.8624dd2f1a9fcp-4)%float then "0.09525"
  else "<float>".

Definition sample_runtime : PyRuntime := {|
  nibabel_load := sample_load;
  py_float := sample_float;
  py_repr := fun s => "'" +:+ s +:+ "'";
  py_str_float := sample_str_float;
  abspath := fun name => "/work/" +:+ name
|}.

(** ** run.py: run_wf *)

(** The call [run_wf] makes on the workflow. *)
Inductive RunCall : Type :=
| RunMultiProc (n_procs : Z)
    (** [wf.run("MultiProc", plugin_args={"n_procs": n_procs})] *)
| RunDefault
    (** [wf.run()] *)
| RunPlugin (plugin : option string) (kwargs : list (string * string))
    (** [wf.run(plugin=plugin, **kwargs)] *).

(** [not plugin], for [plugin] a [str] or [None]. *)
Definition py_not (plugin : option string) : bool :=
  match plugin with
  | None => true
  | Some s => negb (nonempty s)
  end.

Definition run_wf (plugin : option string) (n_cpus : Z)
  (plugin_kwargs : list (string * string)) : RunCall :=
  if bool_decide (plugin = Some "MultiProc") && (1 <? n_cpus)%Z then
    RunMultiProc n_cpus
  else if py_not plugin || bool_decide (plugin = None) || (n_cpus <=? 1)%Z then
    RunDefault
  else
    RunPlugin plugin plugin_kwargs.

(** ** The workflow engine

    The engine is nipype's; the sources build its objects and call its
    [connect].  What follows holds what those calls rely on: nodes with an
    interface, workflows of nodes and connections that nest, the checks the
    engine makes on the name of a workflow, on the fields of an
    [IdentityInterface] and on the base directory of a [SelectFiles], and
    the checks of [connect] on its ends, on node names and on inputs
    already fed, as the later versions of the engine make them.  The
    ports an interface offers are not modelled, so neither is the check of
    [connect] that a port exists, nor the reading of the templates of a
    [SelectFiles] as format strings: a workflow the builders below return
    is the one the engine returns when it returns one. *)

Inductive Interface : Type :=
| IdentityInterface (fields : list string)
| SelectFiles (templates : gmap string string) (base_directory : string)
| DataSink (parameterization : bool) (base_directory : string)
    (substitutions : list (string * string))
| Function (input_names output_names : list string) (function : string)
| JoinPaths
| Tool (class : string) (inputs : list (string * string)).

Global Instance Interface_eq_dec : EqDecision Interface.
Proof. solve_decision. Defined.

(** An edge: output [src_port] of node [src], through [modifier] when one
    is given, feeds input [dst_port] of node [dst].  A port of a node inside
    a workflow is written with the path of the node, [eddy.in_file]. *)
Record Connection : Type := mkConnection {
  src : string;
  src_port : string;
  modifier : option string;
  dst : string;
  dst_port : string
}.

Global Instance Connection_eq_dec : EqDecision Connection.
Proof. solve_decision. Defined.

#[warnings="-register-all"]
Inductive Node : Type :=
| Leaf (name : string) (interface : Interface)
    (iterables : list (string * option (list string)))
| Workflow (name : string) (base_dir : option string) (nodes : list Node)
    (connections : list Connection).

Definition node_name (n : Node) : string :=
  match n with
  | Leaf name _ _ => name
  | Workflow name _ _ _ => name
  end.

Definition connections_of (wf : Node) : list Connection :=
  match wf with
  | Leaf _ _ _ => []
  | Workflow _ _ _ connections => connections
  end.

(** Whether two values are the same node object; objects are told apart by
    what they hold. *)
Fixpoint same_node (x y : Node) : bool :=
  match x, y with
  | Leaf n i it, Leaf n' i' it' =>
      bool_decide (n = n') && bool_decide (i = i') && bool_decide (it = it')
  | Workflow n b ns cs, Workflow n' b' ns' cs' =>
      bool_decide (n = n') && bool_decide (b = b') && bool_decide (cs = cs')
      && (fix all2 (l l' : list Node) : bool :=
            match l, l' with
            | [], [] => true
            | a :: r, a' :: r' => same_node a a' && all2 r r'
            | _, _ => false
            end) ns ns'
  | _, _ => false
  end.

(** What the engine takes from its version and from the file system: the
    names it accepts for a node or a workflow, and the paths that are
    directories.  Every version refuses a name with a period in it; the
    later ones accept only the names that their pattern for names
    matches, which leaves out the empty name and a name with a blank. *)
Class Engine : Type := {
  (** the check of [EngineBase.name] *)
  valid_name : string -> bool;
  valid_name_period :
    forall name, has_char "."%char name = true -> valid_name name = false;
  (** [os.path.isdir], asked for a directory that must exist *)
  isdir : string -> bool
}.

Definition double_quote : string := String (ascii_of_nat 34) EmptyString.

(** [pe.Node(interface, name=name)]; every node name in the sources is a
    literal made of letters, digits and [_], which every version accepts. *)
Definition pe_Node (interface : Interface) (name : string) : Node :=
  Leaf name interface [].

(** The exceptions of the engine, with the messages of its later versions. *)
Definition invalid_name (name : string) : Exn :=
  ValueError ("[Workflow|Node] name " +:+ double_quote +:+ name +:+ double_quote
              +:+ " is not valid.").

Definition no_fields : Exn :=
  ValueError "Identity Interface fields must be a non-empty list".

Definition no_directory (path : string) : Exn :=
  LibraryError "TraitError"
    ("The 'base_directory' trait of a SelectFilesInputSpec instance must be "
     +:+ "an existing directory name, but a value of '" +:+ path +:+ "' was specified.").

Definition duplicate_node (name : string) : Exn :=
  IOError ("Duplicate node name " +:+ double_quote +:+ name +:+ double_quote
           +:+ " found.").

(** [pe.Workflow(name=name, base_dir=base_dir)]: the engine refuses a name
    that is not valid. *)
Definition pe_Workflow `{Engine} (name : string) (base_dir : option string)
  : Result Node :=
  if valid_name name then inr (Workflow name base_dir [] [])
  else inl (invalid_name name).

(** [IdentityInterface(fields=fields)]: the fields are a list that is not
    empty. *)
Definition new_IdentityInterface (fields : list string) : Result Interface :=
  match fields with
  | [] => inl no_fields
  | _ :: _ => inr (IdentityInterface fields)
  end.

(** [SelectFiles(templates, base_directory=base_directory)]: the base
    directory is a trait [Directory(exists=True)], checked before the
    templates are read. *)
Definition new_SelectFiles `{Engine} (templates : gmap string string)
  (base_directory : string) : Result Interface :=
  if isdir base_directory then inr (SelectFiles templates base_directory)
  else inl (no_directory base_directory).

(** [node.iterables = iterables] *)
Definition set_iterables (n : Node) (iterables : list (string * option (list string)))
  : Node :=
  match n with
  | Leaf name interface _ => Leaf name interface iterables
  | Workflow _ _ _ _ => n
  end.

(** [wf._has_node(n)]: [n] is a node of [wf] or of a workflow inside it. *)
Fixpoint has_node (wf n : Node) : bool :=
  match wf with
  | Leaf _ _ _ => false
  | Workflow _ _ nodes _ =>
      (fix any (l : list Node) : bool :=
         match l with
         | [] => false
         | x :: r => same_node x n || has_node x n || any r
         end) nodes
  end.

(** [wf.get_node(name)], [name] a path of names joined by periods. *)
Fixpoint get_node (wf : Node) (name : string) : option Node :=
  match wf with
  | Leaf _ _ _ => None
  | Workflow _ _ nodes _ =>
      let parts := py_split "."%char (Some 1) name in
      (fix first (l : list Node) : option Node :=
         match l with
         | [] => None
         | x :: r =>
             if bool_decide (node_name x = hd "" parts) then
               match parts, x with
               | [_; rest], Workflow _ _ _ _ => get_node x rest
               | _, _ => Some x
               end
             else first r
         end) nodes
  end.

(** The nodes of [wf] that are no workflows, at any depth, each with the
    path that names it, in the order in which the graphs hold them.
    [wf.list_node_names()] gives these paths sorted; a node that two graphs
    hold is listed under both paths. *)
Fixpoint list_nodes (wf : Node) : list (string * Node) :=
  match wf with
  | Leaf _ _ _ => []
  | Workflow _ _ nodes _ =>
      (fix all (l : list Node) : list (string * Node) :=
         match l with
         | [] => []
         | x :: r =>
             app
               match x with
               | Leaf name _ _ => [(name, x)]
               | Workflow name _ _ _ =>
                   map (fun p => (name +:+ "." +:+ fst p, snd p)) (list_nodes x)
               end
               (all r)
         end) nodes
  end.

Definition interface_of (n : Node) : option Interface :=
  match n with
  | Leaf _ interface _ => Some interface
  | Workflow _ _ _ _ => None
  end.

(** *** connect *)

(** One element of the list given to [connect]: source node, destination
    node, and pairs of a source port and a destination port. *)
Definition OutPort : Type := string * option string.
Definition out (port : string) : OutPort := (port, None).
Definition out_via (port function : string) : OutPort := (port, Some function).
Definition Wiring : Type := Node * Node * list (OutPort * string).

(** The nodes of the list that the workflow does not hold yet, each once. *)
Definition add_new (wf : Node) (news : list Node) (n : Node) : list Node :=
  if existsb (same_node n) news || has_node wf n then news else app news [n].

Definition new_nodes (wf : Node) (wirings : list Wiring) : list Node :=
  foldl (fun news w => add_new wf (add_new wf news (fst (fst w))) (snd (fst w)))
        [] wirings.

(** The workflow inside [wf], or [wf] itself, that holds [n] as a node of
    its own graph, by name. *)
Fixpoint holder (wf n : Node) : option string :=
  match wf with
  | Leaf _ _ _ => None
  | Workflow name _ nodes _ =>
      (fix first (l : list Node) : option string :=
         match l with
         | [] => None
         | x :: r =>
             if same_node x n then Some name
             else match holder x n with
                  | Some h => Some h
                  | None => first r
                  end
         end) nodes
  end.

(** The lineage of a node of the graph of the workflow [name]: the workflow
    it was first added to, which is the workflow inside that holds it for a
    node taken over with an edge, and [name] for the others. *)
Definition lineage (name : string) (nodes : list Node) (x : Node) : string :=
  default name
    (foldr (fun y found => match holder y x with
                           | Some h => Some h
                           | None => found
                           end)
           None nodes).

(** [_check_nodes]: a new node must not bear the name of another new node,
    nor that of a node of the graph, when the first node of that name has
    the graph for its lineage.  [graph] holds the names and lineages of the
    nodes of the graph, [seen] the names of the new nodes checked. *)
Fixpoint check_nodes (self : string) (graph : list (string * string))
  (seen : list string) (news : list Node) : Result unit :=
  match news with
  | [] => inr tt
  | n :: rest =>
      match List.find (fun e => bool_decide (fst e = node_name n)) graph with
      | Some e =>
          if bool_decide (snd e = self) then inl (duplicate_node (node_name n))
          else check_nodes self graph seen rest
      | None =>
          if bool_decide (node_name n ∈ seen) then inl (duplicate_node (node_name n))
          else check_nodes self graph (app seen [node_name n]) rest
      end
  end.

(** The edges of a wiring run between its two nodes, each a node of the
    graph once the wiring is made. *)
Definition edges_of (w : Wiring) : list Connection :=
  map (fun p => mkConnection (node_name (fst (fst w))) (fst (fst p)) (snd (fst p))
                             (node_name (snd (fst w))) (snd p))
      (snd w).

(** The graph takes every end of an edge as a node of its own
    ([add_edges_from]): a node that is new, and also a node that a workflow
    of the graph holds already, which both graphs hold from then on. *)
Definition add_node (nodes : list Node) (n : Node) : list Node :=
  if existsb (fun x => same_node x n) nodes then nodes else app nodes [n].

Definition with_end_points (nodes : list Node) (wirings : list Wiring) : list Node :=
  foldl (fun nodes w => add_node (add_node nodes (fst (fst w))) (snd (fst w)))
        nodes wirings.

(** An input takes one edge at most. *)
Fixpoint check_inputs (present : list Connection) (added : list Connection)
  : Result unit :=
  match added with
  | [] => inr tt
  | c :: rest =>
      if existsb (fun c' => bool_decide (dst c' = dst c) && bool_decide (dst_port c' = dst_port c))
                 present then
        inl (Exception ("Trying to connect " +:+ src c +:+ ":" +:+ src_port c +:+ " to "
                        +:+ dst c +:+ ":" +:+ dst_port c +:+ " but input '" +:+ dst_port c
                        +:+ "' of node '" +:+ dst c +:+ "' is already connected."))
      else check_inputs (app present [c]) rest
  end.

(** A workflow is no end of a wiring of its own. *)
Definition wired_to_itself (wf : Node) (wirings : list Wiring) : bool :=
  existsb (fun w => same_node wf (fst (fst w)) || same_node wf (snd (fst w))) wirings.

(** [wf.connect(wirings)]: the nodes that are new are checked for their
    names and added, the inputs are checked, and the edges are added with
    their ends.  The engine keeps the new nodes in a set; here they are in
    the order of the wirings. *)
Definition connect (wf : Node) (wirings : list Wiring) : Result Node :=
  match wf with
  | Leaf _ _ _ => inl (AttributeError "connect")
  | Workflow name base_dir nodes connections =>
      if wired_to_itself wf wirings then
        inl (IOError "Workflow connect cannot contain itself as node")
      else
        let news := new_nodes wf wirings in
        let added := flat_map edges_of wirings in
        (check_nodes name (map (fun x => (node_name x, lineage name nodes x)) nodes) []
                     news ;;
         check_inputs connections added ;;
         inr (Workflow name base_dir (with_end_points (app nodes news) wirings)
                       (app connections added)))%result
  end.

(** *** Roles, iteration and the flow of values *)

Definition is_SelectFiles (i : Interface) : bool :=
  match i with
  | SelectFiles _ _ => true
  | _ => false
  end.

Definition is_DataSink (i : Interface) : bool :=
  match i with
  | DataSink _ _ _ => true
  | _ => false
  end.

(** The nodes of [wf], at any depth, whose interface has the role, each
    once: a node listed under two paths is one node. *)
Definition nodes_with_role (wf : Node) (role : Interface -> bool) : list Node :=
  foldl add_node []
    (map snd
       (List.filter (fun p => match interface_of (snd p) with
                              | Some i => role i
                              | None => false
                              end)
                    (list_nodes wf))).

(** Modelled from the spec: [find_wf_node] of [pypes.utils] is not among
    the sources.  The specification has the discovery of a node by its role
    fail with UnresolvedBoundaryPortError when no node or more than one node
    of the host graph has the role, and give the node when exactly one has. *)
Definition find_wf_node (wf : Node) (role : Interface -> bool) : Result Node :=
  match nodes_with_role wf role with
  | [n] => inr n
  | matches => inl (UnresolvedBoundaryPortError (length matches))
  end.

(** Modelled from the spec: [joinpaths] of [pypes.utils] is not among the
    sources.  It gives the interface of a node with inputs [arg1] and [arg2]
    and output [out]; the specification has the identifier tuple joined as a
    storage sub-path, nested by the first identifier and then the second. *)
Definition joinpaths : Interface := JoinPaths.

Definition joined_path (arg1 arg2 : string) : string := arg1 +:+ "/" +:+ arg2.

(** One logical execution: a value for each iterated field. *)
Definition Instance : Type := list (string * string).

(** Modelled from the spec: the expansion of iteration axes is the engine's.
    The specification has one instance for each element of the cross product
    of the axes, and none when an axis has no value. *)
Fixpoint expand_axes (axes : list (string * list string)) : list Instance :=
  match axes with
  | [] => [[]]
  | (field, values) :: rest =>
      flat_map (fun v => map (cons (field, v)) (expand_axes rest)) values
  end.

(** The values of an axis must be a sequence: [None] cannot be iterated. *)
Fixpoint axes_of (iterables : list (string * option (list string)))
  : Result (list (string * list string)) :=
  match iterables with
  | [] => inr []
  | (field, Some values) :: rest =>
      (axes <~ axes_of rest ;; inr ((field, values) :: axes))%result
  | (field, None) :: _ => inl (TypeError "'NoneType' object is not iterable")
  end.

Definition iterables_of (n : Node) : list (string * option (list string)) :=
  match n with
  | Leaf _ _ iterables => iterables
  | Workflow _ _ _ _ => []
  end.

(** The instances of a workflow: the expansion of the iterables its nodes
    carry. *)
Definition expand (wf : Node) : Result (list Instance) :=
  (axes <~ axes_of (flat_map (fun p => iterables_of (snd p)) (list_nodes wf)) ;;
   inr (expand_axes axes))%result.

(** The name space of an instance, made of its fields and values as the
    substitutions of [in_out_workflow] expect them:
    [_session_id_s0_subject_id_S1]. *)
Definition instance_namespace (inst : Instance) : string :=
  foldr (fun kv rest => "_" +:+ fst kv +:+ "_" +:+ snd kv +:+ rest) "" inst.

Definition assoc (key : string) (l : list (string * string)) : option string :=
  match List.find (fun kv => bool_decide (fst kv = key)) l with
  | Some kv => Some (snd kv)
  | None => None
  end.

Definition edge_into (wf : Node) (node port : string) : option Connection :=
  List.find (fun c => bool_decide (dst c = node) && bool_decide (dst_port c = port))
            (connections_of wf).

(** The value that leaves output [port] of [node] in instance [inst] of
    [wf]: an iterated field of an identity node has the value of the
    instance, another of its fields the value that enters it; the output of
    a join node is the joined path of its two inputs; an output of a workflow
    is the output of the node inside it.  The outputs of the other
    interfaces are files computed by external tools, and have no value here.
    [fuel] bounds the number of edges followed. *)
Fixpoint output_value (fuel : nat) (inst : Instance) (wf : Node)
  (node port : string) : option string :=
  match fuel with
  | O => None
  | S fuel =>
      let input_value (p : string) : option string :=
        match edge_into wf node p with
        | Some (mkConnection from from_port None _ _) =>
            output_value fuel inst wf from from_port
        | _ => None
        end in
      match get_node wf node with
      | Some (Leaf _ (IdentityInterface fields) iterables) =>
          if bool_decide (port ∈ fields) then
            if bool_decide (port ∈ map fst iterables) then assoc port inst
            else input_value port
          else None
      | Some (Leaf _ JoinPaths _) =>
          if bool_decide (port = "out") then
            match input_value "arg1", input_value "arg2" with
            | Some arg1, Some arg2 => Some (joined_path arg1 arg2)
            | _, _ => None
            end
          else None
      | Some (Workflow _ _ _ _ as sub) =>
          match py_split "."%char (Some 1) port with
          | [inner; p] => output_value fuel inst sub inner p
          | _ => None
          end
      | _ => None
      end
  end.

(** The value that enters input [port] of [node]. *)
Definition input_value (fuel : nat) (inst : Instance) (wf : Node)
  (node port : string) : option string :=
  match edge_into wf node port with
  | Some (mkConnection from from_port None _ _) =>
      output_value fuel inst wf from from_port
  | _ => None
  end.

(** ** Helpers of pypes that are not among the sources *)

Class Helpers : Type := {
  (** [_utils._check_list] *)
  check_list : option (list string) -> option (list string);
  (** [_utils.remove_ext] *)
  remove_ext : string -> string;
  (** [utils.extend_trait_list], its first argument [None] when undefined *)
  extend_trait_list :
    option (list (string * string)) -> list (string * string) -> list (string * string);
  (** [os.listdir] *)
  os_listdir : string -> Result (list string);
  (** [anat.attach_spm_anat_preprocessing] *)
  attach_spm_anat_preprocessing : Node -> string -> Result Node
}.

(** [os.path.basename] *)
Definition basename (path : string) : string :=
  List.last (py_split "/"%char None path) "".

(** ** input_files.py *)

Definition input_file_wf `{Engine} (work_dir data_dir : string)
  (field_iterables : list (string * option (list string)))
  (file_templates : gmap string string) (wf_name : string) : Result Node :=
  (wf <~ pe_Workflow wf_name (Some work_dir) ;;
   let field_names := map fst field_iterables in
   identity <~ new_IdentityInterface field_names ;;
   let infosource := set_iterables (pe_Node identity "infosrc") field_iterables in
   files <~ new_SelectFiles file_templates data_dir ;;
   let select := pe_Node files "select" in
   connect wf [(infosource, select, map (fun field => (out field, field)) field_names)]
  )%result.

Definition subject_session_input `{Engine} `{Helpers} (base_dir : string)
  (session_names : option (list string)) (file_names : list string)
  (subject_ids : option (list string)) (wf_name : string) : Result Node :=
  (subj_ids <~ match check_list subject_ids with
               | Some ids => inr ids
               | None => (paths <~ os_listdir base_dir ;; inr (map basename paths))
               end ;;
   let fields := [("session_id", session_names); ("subject_id", Some subj_ids)] in
   let files :=
     foldl (fun d f => <[remove_ext (basename f) := "{subject_id}/{session_id}/" +:+ f]> d)
           (∅ : gmap string string) file_names in
   input_file_wf base_dir base_dir fields files wf_name)%result.

(** ** run.py: in_out_workflow *)

Definition in_out_workflow `{Engine} `{Helpers} (work_dir data_dir output_dir : string)
  (file_names : list string) (session_names subject_ids : option (list string))
  (input_wf_name wf_name : string) : Result Node :=
  (main_wf <~ pe_Workflow wf_name (Some work_dir) ;;
   input_wf <~ subject_session_input data_dir session_names file_names subject_ids
                 input_wf_name ;;
   let substitutions :=
     app [("_subject_id", "")]
         match session_names with
         | Some _ => [("_session_id_", "")]
         | None => []
         end in
   let datasink :=
     pe_Node (DataSink false output_dir (extend_trait_list None substitutions))
             "datasink" in
   match session_names with
   | None =>
       connect main_wf [(input_wf, datasink, [(out "infosrc.subject_id", "container")])]
   | Some _ =>
       let joinpath := pe_Node joinpaths "joinpath" in
       connect main_wf
         [(input_wf, joinpath, [(out "infosrc.subject_id", "arg1");
                                (out "infosrc.session_id", "arg2")]);
          (joinpath, datasink, [(out "out", "container")])]
   end)%result.

(** ** dti.py: the diffusion workflow and its attachment *)

(** [preproc.spm_coregister(cost_function=...)] *)
Definition spm_coregister (cost_function : string) : Interface :=
  Tool "Coregister" [("cost_function", cost_function); ("jobtype", "estwrite")].

Definition fsl_dti_preprocessing `{Engine} (wf_name : string) : Result Node :=
  let write_acqp :=
    pe_Node (Function ["in_file"] ["out_acqp"; "out_index"] "write_acquisition_parameters")
            "write_acqp" in
  let extract_b0 := pe_Node (Tool "ExtractROI" [("t_min", "0"); ("t_size", "1")]) "extract_b0" in
  let gunzip_b0 := pe_Node (Tool "Gunzip" []) "gunzip_b0" in
  let coreg_b0 := pe_Node (spm_coregister "mi") "coreg_b0" in
  let brain_sel := pe_Node (Tool "Select" [("index", "[0, 1, 2]")]) "brain_sel" in
  let brain_split :=
    pe_Node (Tool "Split" [("splits", "[1, 2]"); ("squeeze", "True")]) "brain_split" in
  let brain_merge :=
    pe_Node (Tool "MultiImageMaths" [("op_string", "-add '%s' -add '%s' -abs -bin");
                                     ("out_file", "brain_mask.nii.gz")])
            "brain_merge" in
  let eddy := pe_Node (Tool "Eddy" []) "eddy" in
  let dtifit := pe_Node (Tool "DTIFit" [("save_tensor", "True")]) "dtifit" in
  (wf <~ pe_Workflow wf_name None ;;
   connect wf
     [(write_acqp, eddy, [(out "out_acqp", "in_acqp");
                          (out "out_index", "in_index")]);
      (extract_b0, gunzip_b0, [(out "roi_file", "in_file")]);
      (gunzip_b0, coreg_b0, [(out "out_file", "target")]);
      (brain_sel, coreg_b0, [(out_via "out" "flatten_list", "apply_to_files")]);
      (coreg_b0, brain_split, [(out "coregistered_files", "inlist")]);
      (brain_split, brain_merge, [(out "out1", "in_file")]);
      (brain_split, brain_merge, [(out "out2", "operand_files")]);
      (brain_merge, eddy, [(out "out_file", "in_mask")]);
      (eddy, dtifit, [(out "out_corrected", "dwi")]);
      (brain_merge, dtifit, [(out "out_file", "mask")])])%result.

(** The wiring of lines 243-264, for the nodes found in the main workflow. *)
Definition dti_wirings (in_files anat_wf dti_wf datasink : Node) : list Wiring :=
  [(in_files, dti_wf, [(out "diff", "eddy.in_file");
                       (out "diff", "write_acqp.in_file");
                       (out "diff", "extract_b0.in_file");
                       (out "diff_bval", "dtifit.bvals");
                       (out "diff_bvec", "dtifit.bvecs");
                       (out "diff_bval", "eddy.in_bval");
                       (out "diff_bvec", "eddy.in_bvec")]);
   (anat_wf, dti_wf, [(out "new_segment.native_class_images", "brain_sel.inlist");
                      (out "gunzip_anat.out_file", "coreg_b0.source")]);
   (dti_wf, datasink, [(out "eddy.out_corrected", "diff.@eddy_corrected");
                       (out "dtifit.V1", "diff.@v1");
                       (out "dtifit.V2", "diff.@v2");
                       (out "dtifit.V3", "diff.@v3");
                       (out "dtifit.L1", "diff.@l1");
                       (out "dtifit.L2", "diff.@l2");
                       (out "dtifit.L3", "diff.@l3");
                       (out "dtifit.MD", "diff.@mean_diffusivity");
                       (out "dtifit.FA", "diff.@fractional_anisotropy");
                       (out "dtifit.MO", "diff.@mode_of_anisotropy");
                       (out "dtifit.S0", "diff.@s0");
                       (out "dtifit.tensor", "diff.@tensor")])].


(** ** Helpers to compute with

    Stand-ins for the helpers that are not among the sources, enough to run
    the workflow builders on concrete inputs. *)

(** The names the later versions of the engine accept, those that
    [^[\w-]+$] matches, for names of ASCII characters. *)
Definition word_char (c : ascii) : bool :=
  let n := nat_of_ascii c in
  (Nat.leb 48 n && Nat.leb n 57) || (Nat.leb 65 n && Nat.leb n 90)
  || (Nat.leb 97 n && Nat.leb n 122) || Nat.eqb n 95 || Nat.eqb n 45.

Fixpoint sample_valid_name (name : string) : bool :=
  match name with
  | EmptyString => false
  | String c rest =>
      word_char c
      && match rest with
         | EmptyString => true
         | String c' rest' =>
             if Ascii.eqb c' "010"%char && negb (nonempty rest') then true
             else sample_valid_name rest
         end
  end.

Definition sample_valid_name_period (name : string) :
  has_char "."%char name = true -> sample_valid_name name = false.
Proof.
  induction name as [|c rest IH]; [discriminate|].
  cbn [has_char sample_valid_name].
  destruct (Ascii.eqb c "."%char) eqn:Hc.
  - apply Ascii.eqb_eq in Hc. subst c. intros _. reflexivity.
  - cbn [orb]. intros Hrest. destruct (word_char c); [|reflexivity]. cbn [andb].
    destruct rest as [|c' rest']; [discriminate|].
    destruct (Ascii.eqb c' "010"%char) eqn:Hnl.
    + apply Ascii.eqb_eq in Hnl. subst c'. cbn [has_char Ascii.eqb] in Hrest.
      destruct rest' as [|c'' rest'']; [discriminate|].
      cbn [andb negb nonempty]. exact (IH Hrest).
    + cbn [andb]. exact (IH Hrest).
Qed.

Definition sample_engine : Engine := {|
  valid_name := sample_valid_name;
  valid_name_period := sample_valid_name_period;
  isdir := fun path => bool_decide (path ∈ ["/data"; "/out"; "/work"])
|}.

(** A stand-in for the anatomical attachment: it feeds its workflow from
    the first file selection of the main workflow, when there is one. *)
Definition sample_attach_anat (main_wf : Node) (wf_name : string) : Result Node :=
  (wf <~ @pe_Workflow sample_engine wf_name None ;;
   anat_wf <~ connect wf [(pe_Node (Tool "Gunzip" []) "gunzip_anat",
                           pe_Node (Tool "NewSegment" []) "new_segment",
                           [(out "out_file", "channel_files")])] ;;
   connect main_wf
     (app (map (fun in_files => (in_files, anat_wf, [(out "anat_hc", "gunzip_anat.in_file")]))
               (firstn 1 (nodes_with_role main_wf is_SelectFiles)))
          [(anat_wf, pe_Node (Tool "Rename" []) "anat_tissues",
            [(out "new_segment.native_class_images", "in_file")])])
  )%result.

Definition sample_helpers : Helpers := {|
  check_list := fun ids => ids;
  remove_ext := fun name => hd "" (py_split "."%char None name);
  extend_trait_list := fun old new => app (default [] old) new;
  os_listdir := fun _ => inr ["S1"; "S2"];
  attach_spm_anat_preprocessing := sample_attach_anat
|}.

Definition sample_main_wf : Result Node :=
  @in_out_workflow sample_engine sample_helpers "/work" "/data" "/out"
    ["anat_hc.nii.gz"; "diff.nii.gz"] (Some ["s0"]) (Some ["S1"; "S2"])
    "input_files" "main_workflow".

(** The workflow of a result, the empty workflow for an exception. *)
Definition workflow_of (r : Result Node) : Node :=
  match r with
  | inr wf => wf
  | inl _ => Workflow "" None [] []
  end.

(** A main workflow with neither file selection nor result sink. *)
Definition sample_bare_wf : Node := Workflow "main_workflow" (Some "/work") [] [].


(** ** Nodes and edges of a workflow *)

Definition nodes_of (wf : Node) : list Node :=
  match wf with
  | Leaf _ _ _ => []
  | Workflow _ _ nodes _ => nodes
  end.

(** Node [a] feeds node [b] in [wf]: a connection of [wf] leads from the
    one to the other. *)
Definition feeds (wf : Node) (a b : string) : Prop :=
  exists c, c ∈ connections_of wf /\ src c = a /\ dst c = b.

(** The input a connection feeds. *)
Definition fed_input (c : Connection) : string * string := (dst c, dst_port c).

(** ** Helpers that read the data directory

    A stand-in where no subject is given and the directory holds two
    subjects, and one where the directory cannot be read. *)

Definition listing_helpers : Helpers := {|
  check_list := fun _ => None;
  remove_ext := fun name => hd "" (py_split "."%char None name);
  extend_trait_list := fun old new => app (default [] old) new;
  os_listdir := fun _ => inr ["S1"; "S2"];
  attach_spm_anat_preprocessing := sample_attach_anat
|}.

Definition unreadable_helpers : Helpers := {|
  check_list := fun _ => None;
  remove_ext := fun name => hd "" (py_split "."%char None name);
  extend_trait_list := fun old new => app (default [] old) new;
  os_listdir := fun dir => inl (LibraryError "FileNotFoundError" dir);
  attach_spm_anat_preprocessing := sample_attach_anat
|}.

(** The node inside [wf] and its port that a port of [wf] stands for:
    [eddy.in_file] is the port [in_file] of the node [eddy]. *)
Definition inner_port (wf : Node) (port : string) : option (Node * string) :=
  match py_split "."%char (Some 1) port with
  | [node; p] =>
      match get_node wf node with
      | Some n => Some (n, p)
      | None => None
      end
  | _ => None
  end.

(** The place of a node of the diffusion workflow in an order of
    execution. *)
Definition dti_rank (node : string) : nat :=
  if bool_decide (node = "gunzip_b0") then 1
  else if bool_decide (node = "coreg_b0") then 2
  else if bool_decide (node = "brain_split") then 3
  else if bool_decide (node = "brain_merge") then 4
  else if bool_decide (node = "eddy") then 5
  else if bool_decide (node = "dtifit") then 6
  else 0.


(** ** A main workflow ready for the diffusion workflow

    The sample main workflow after the sample anatomical attachment, and the
    three nodes of it that the diffusion workflow is wired to. *)

Definition sample_host_wf : Node :=
  workflow_of (sample_attach_anat (workflow_of sample_main_wf) "spm_anat_preproc").

Definition sample_found (role : Interface -> bool) : Node :=
  workflow_of (find_wf_node sample_host_wf role).

Definition sample_node (path : string) : Node :=
  default sample_bare_wf (get_node sample_host_wf path).

Definition sample_dti_wf : Node :=
  workflow_of (@fsl_dti_preprocessing sample_engine "fsl_dti_preproc").

Definition sample_attached_wf : Node :=
  workflow_of (connect sample_host_wf
                 (dti_wirings (sample_found is_SelectFiles)
                              (sample_node "spm_anat_preproc")
                              sample_dti_wf
                              (sample_found is_DataSink))).

(** ** A second runtime to compute with

    The sample runtime with one more image: the annotation of [dwi.nii.gz]
    on another shape. *)

Definition wide_load (path : string) : Result Image :=
  if decide (path = "dwi64.nii.gz")
  then inr (mkImage [128; 128; 70] 64 "phaseDir=+;dwell=0.39")
  else sample_load path.

Definition wide_runtime : PyRuntime := {|
  nibabel_load := wide_load;
  py_float := sample_float;
  py_repr := fun s => "'" +:+ s +:+ "'";
  py_str_float := sample_str_float;
  abspath := fun name => "/work/" +:+ name
|}.

(** * Properties *)

(** ** Splitting and joining *)

Lemma split_pieces_no_budget sep s :
  split_pieces sep (Some 0) s = (s, []).
Proof.
  induction s as [|c r IH]; simpl; [reflexivity|].
  rewrite andb_false_r, IH. reflexivity.
Qed.

Lemma split_pieces_absent sep n s :
  has_char sep s = false -> split_pieces sep n s = (s, []).
Proof.
  induction s as [|c r IH]; simpl; [reflexivity|].
  intros Hc. apply orb_false_iff in Hc as [Hc Hr].
  rewrite Hc, (IH Hr). reflexivity.
Qed.

Lemma split_once_absent sep s :
  has_char sep s = false -> py_split sep (Some 1) s = [s].
Proof.
  intros Hs. unfold py_split. rewrite (split_pieces_absent _ _ _ Hs). reflexivity.
Qed.

Lemma split_once_present sep s :
  has_char sep s = true ->
  exists k v, s = k +:+ String sep v /\ has_char sep k = false
              /\ py_split sep (Some 1) s = [k; v].
Proof.
  induction s as [|c r IH]; simpl; [discriminate|].
  destruct (Ascii.eqb c sep) eqn:Hc; simpl; intros Hs.
  - apply Ascii.eqb_eq in Hc as ->.
    exists "", r. unfold py_split. simpl.
    rewrite Ascii.eqb_refl. simpl. rewrite split_pieces_no_budget. auto.
  - destruct (IH Hs) as (k & v & -> & Hk & Hkv).
    exists (String c k), v. simpl. rewrite Hc, Hk. repeat split.
    unfold py_split in *. simpl. rewrite Hc. simpl.
    injection Hkv as -> ->. reflexivity.
Qed.

Lemma split_once_key_value sep k v :
  has_char sep k = false -> py_split sep (Some 1) (k +:+ String sep v) = [k; v].
Proof.
  intros Hk. unfold py_split.
  induction k as [|c r IH]; simpl in *.
  - rewrite Ascii.eqb_refl. simpl. rewrite split_pieces_no_budget. reflexivity.
  - apply orb_false_iff in Hk as [Hc Hr]. rewrite Hc. simpl.
    specialize (IH Hr). injection IH as -> ->. reflexivity.
Qed.

Lemma split_once_length sep s :
  length (py_split sep (Some 1) s) = (if has_char sep s then 2 else 1)%nat.
Proof.
  destruct (has_char sep s) eqn:Hs.
  - destruct (split_once_present _ _ Hs) as (k & v & _ & _ & ->). reflexivity.
  - rewrite (split_once_absent _ _ Hs). reflexivity.
Qed.

Lemma split_once_pair sep s k v :
  py_split sep (Some 1) s = [k; v] <->
  s = k +:+ String sep v /\ has_char sep k = false.
Proof.
  split.
  - destruct (has_char sep s) eqn:Hs.
    + destruct (split_once_present _ _ Hs) as (k' & v' & -> & Hk & Hkv).
      rewrite Hkv. intros [= -> ->]. auto.
    + rewrite (split_once_absent _ _ Hs). discriminate.
  - intros [-> Hk]. apply split_once_key_value, Hk.
Qed.

(** ** dict from a list of pairs *)

Lemma dict_update_lookup items : forall i d,
  Forall (fun item => length item = 2%nat) items ->
  exists d', dict_update i d items = inr d' /\
    forall k v, d' !! k = Some v <->
      (exists n, items !! n = Some [k; v] /\
                 forall m v', (n < m)%nat -> items !! m <> Some [k; v'])
      \/ (d !! k = Some v /\ forall m v', items !! m <> Some [k; v']).
Proof.
  induction items as [|item rest IH]; intros i d Hall.
  - exists d. split; [reflexivity|]. intros k v. split.
    + intros Hd. right. split; [exact Hd|]. intros m v'. rewrite lookup_nil. discriminate.
    + intros [(n & Hn & _)|[Hd _]]; [rewrite lookup_nil in Hn; discriminate|exact Hd].
  - apply Forall_cons in Hall as [Hlen Hrest].
    destruct item as [|k0 [|v0 [|? ?]]]; try discriminate Hlen.
    destruct (IH (S i) (<[k0 := v0]> d) Hrest) as (d' & Hrun & Hlook).
    exists d'. split; [exact Hrun|]. intros k v. rewrite Hlook. split.
    + intros [(n & Hn & Hlast)|[Hd Hnone]].
      * left. exists (S n). split; [exact Hn|].
        intros [|m] v' Hm; [lia|]. simpl. apply Hlast. lia.
      * destruct (decide (k0 = k)) as [->|Hne].
        -- rewrite lookup_insert_eq in Hd. injection Hd as ->.
           left. exists 0%nat. split; [reflexivity|].
           intros [|m] v' Hm; [lia|]. simpl. apply Hnone.
        -- rewrite lookup_insert_ne in Hd by exact Hne.
           right. split; [exact Hd|].
           intros [|m] v'; simpl; [congruence|apply Hnone].
    + intros [(n & Hn & Hlast)|[Hd Hnone]].
      * destruct n as [|n]; simpl in Hn.
        -- injection Hn as -> ->. right. split; [apply lookup_insert_eq|].
           intros m v'. apply (Hlast (S m) v'). lia.
        -- left. exists n. split; [exact Hn|].
           intros m v' Hm. apply (Hlast (S m) v'). lia.
      * right. split.
        -- rewrite lookup_insert_ne; [exact Hd|].
           intros ->. apply (Hnone 0%nat v0). reflexivity.
        -- intros m v'. apply (Hnone (S m) v').
Qed.

Lemma dict_update_short items : forall i d,
  Exists (fun item => length item <> 2%nat) items ->
  exists msg, dict_update i d items = inl (ValueError msg).
Proof.
  induction items as [|item rest IH]; intros i d Hex.
  - apply Exists_nil in Hex. contradiction.
  - destruct item as [|k0 [|v0 [|? ?]]]; simpl; eauto.
    apply Exists_cons in Hex as [Hbad|Hex]; [contradiction Hbad; reflexivity|].
    apply IH, Hex.
Qed.

Lemma split_pieces_free sep s :
  has_char sep (fst (split_pieces sep None s)) = false
  /\ Forall (fun piece => has_char sep piece = false) (snd (split_pieces sep None s)).
Proof.
  induction s as [|c r [IHh IHt]]; simpl; [auto|].
  rewrite andb_true_r. destruct (Ascii.eqb c sep) eqn:Hc; simpl.
  - split; [reflexivity|]. constructor; assumption.
  - rewrite Hc. simpl. auto.
Qed.

(** The pieces of [s.split(sep)] hold no separator, and joined by it they
    give [s] back: they are the segments of [s] between separators. *)
Lemma py_split_segments sep s :
  Forall (fun piece => has_char sep piece = false) (py_split sep None s)
  /\ py_join (String sep EmptyString) (py_split sep None s) = s.
Proof.
  split.
  - unfold py_split. destruct (split_pieces_free sep s). constructor; assumption.
  - unfold py_split. induction s as [|c r IH]; simpl; [reflexivity|].
    rewrite andb_true_r. destruct (Ascii.eqb c sep) eqn:Hc; simpl.
    + apply Ascii.eqb_eq in Hc as ->. simpl in IH. rewrite IH. reflexivity.
    + destruct (split_pieces sep None r) as [h t]. simpl in *.
      destruct t; simpl in *; rewrite <- IH; reflexivity.
Qed.

(** ** The header annotation *)

Lemma parse_descrip_items text n k v :
  map (py_split "="%char (Some 1)) (py_split ";"%char None text) !! n = Some [k; v]
  <-> py_split ";"%char None text !! n = Some (k +:+ "=" +:+ v)
      /\ has_char "="%char k = false.
Proof.
  rewrite list_lookup_fmap. destruct (py_split ";"%char None text !! n) as [seg|]; simpl.
  - split.
    + intros Hs. apply (inj Some) in Hs.
      apply split_once_pair in Hs as [-> Hk]. auto.
    + intros [Hs Hk]. apply (inj Some) in Hs as ->.
      f_equal. apply split_once_pair. auto.
  - split; [discriminate|]. intros [? _]. discriminate.
Qed.

(** C4, as amended.  When every segment between semicolons holds an [=],
    the header annotation parses to a mapping that holds exactly the keys of
    the segments, each key being the text before the segment's first [=]
    and its value the text after it, both untrimmed; a key that several
    segments carry is mapped to the value of the last of them.  When some
    segment holds no [=], the parse raises [ValueError], the error the
    specification calls MalformedMetadataError. *)
Theorem parse_descrip_last_segment_wins (text : string) :
  (Forall (fun seg => has_char "="%char seg = true) (py_split ";"%char None text) ->
   exists d, parse_descrip text = inr d /\
     forall k v, d !! k = Some v <->
       exists n, py_split ";"%char None text !! n = Some (k +:+ "=" +:+ v)
                 /\ has_char "="%char k = false
                 /\ forall m v', (n < m)%nat ->
                      py_split ";"%char None text !! m <> Some (k +:+ "=" +:+ v'))
  /\ (Exists (fun seg => has_char "="%char seg = false) (py_split ";"%char None text) ->
      exists msg, parse_descrip text = inl (ValueError msg)).
Proof.
  unfold parse_descrip, py_dict.
  set (segs := py_split ";"%char None text). split.
  - intros Hall.
    destruct (dict_update_lookup (map (py_split "="%char (Some 1)) segs) 0 ∅)
      as (d & Hrun & Hlook).
    { apply Forall_fmap. eapply Forall_impl; [exact Hall|].
      intros seg Hseg. unfold compose. rewrite split_once_length, Hseg. reflexivity. }
    exists d. split; [exact Hrun|]. intros k v. rewrite Hlook. split.
    + intros [(n & Hn & Hlast)|[Hd _]]; [|rewrite lookup_empty in Hd; discriminate].
      apply parse_descrip_items in Hn as [Hn Hk].
      exists n. repeat split; try assumption.
      intros m v' Hm Hseg. apply (Hlast m v' Hm).
      apply parse_descrip_items. auto.
    + intros (n & Hn & Hk & Hlast). left. exists n. split.
      * apply parse_descrip_items. auto.
      * intros m v' Hm Hitem. apply parse_descrip_items in Hitem as [Hseg _].
        exact (Hlast m v' Hm Hseg).
  - intros Hex. apply dict_update_short.
    apply Exists_fmap. eapply Exists_impl; [exact Hex|].
    intros seg Hseg. unfold compose. rewrite split_once_length, Hseg. discriminate.
Qed.

Lemma parse_descrip_last_segment_wins_witness :
  (exists d, parse_descrip "phaseDir=+;dwell=0.39" = inr d /\
     forall k v, d !! k = Some v <->
       exists n, py_split ";"%char None "phaseDir=+;dwell=0.39" !! n = Some (k +:+ "=" +:+ v)
                 /\ has_char "="%char k = false
                 /\ forall m v', (n < m)%nat ->
                      py_split ";"%char None "phaseDir=+;dwell=0.39" !! m
                      <> Some (k +:+ "=" +:+ v'))
  /\ (exists msg, parse_descrip "phaseDir=+;dwell" = inl (ValueError msg)).
Proof.
  split.
  - apply (proj1 (parse_descrip_last_segment_wins "phaseDir=+;dwell=0.39")).
    vm_compute. repeat constructor.
  - apply (proj2 (parse_descrip_last_segment_wins "phaseDir=+;dwell")).
    vm_compute. apply Exists_cons_tl, Exists_cons_hd. reflexivity.
Defined.

(** C4, as stated, fails on a repeated key: in ["a=1;a=2"] the segment
    ["a=1"] has key ["a"] and value ["1"], and the mapping takes ["a"] to
    ["2"]. *)
Lemma parse_descrip_repeated_key :
  exists d, parse_descrip "a=1;a=2" = inr d
    /\ In "a=1" (py_split ";"%char None "a=1;a=2")
    /\ py_split "="%char (Some 1) "a=1" = ["a"; "1"]
    /\ d !! "a" = Some "2"
    /\ d !! "a" <> Some "1".
Proof.
  exists (<["a" := "2"]> ∅). split; [vm_compute; reflexivity|].
  split; [left; reflexivity|]. split; [reflexivity|].
  split; [reflexivity|]. rewrite lookup_insert_eq. discriminate.
Qed.

(** Nothing is trimmed: blanks around key and value stay in them. *)
Example parse_descrip_keeps_blanks :
  exists d, parse_descrip " phaseDir = +;dwell= 0.39 " = inr d
    /\ d !! " phaseDir " = Some " +" /\ d !! "dwell" = Some " 0.39 "
    /\ d !! "phaseDir" = None.
Proof.
  exists (<["dwell" := " 0.39 "]> (<[" phaseDir " := " +"]> ∅)).
  split; [vm_compute; reflexivity|]. repeat split; reflexivity.
Qed.

(** ** The index line *)

Lemma join_ones_succ n :
  py_join " " (replicate (S (S n)) "1") = "1 " +:+ py_join " " (replicate (S n) "1").
Proof. reflexivity. Qed.

Lemma split_newline_ones n :
  split_pieces "010"%char None (py_join " " (replicate n "1") +:+ newline)
  = (py_join " " (replicate n "1"), [""]).
Proof.
  destruct n as [|n]; [reflexivity|].
  induction n as [|n IH]; [reflexivity|].
  rewrite join_ones_succ. simpl String.app.
  change (split_pieces "010"%char None
            (String "1" (String " " (py_join " " (replicate (S n) "1") +:+ newline)))
          = (String "1" (String " " (py_join " " (replicate (S n) "1"))), [""])).
  cbn [split_pieces Ascii.eqb Bool.eqb andb].
  rewrite IH. reflexivity.
Qed.

Lemma split_blank_ones n :
  py_split " "%char None (py_join " " (replicate (S n) "1")) = replicate (S n) "1".
Proof.
  unfold py_split. induction n as [|n IH]; [reflexivity|].
  rewrite join_ones_succ. simpl String.app.
  change (let p := split_pieces " " None
                     (String "1" (String " " (py_join " " (replicate (S n) "1")))) in
          p.1 :: p.2 = "1" :: replicate (S n) "1").
  cbn [split_pieces Ascii.eqb Bool.eqb andb can_split after_split fst snd].
  cbn zeta. rewrite IH. reflexivity.
Qed.

Lemma tokens_index_line n :
  tokens (py_join " " (replicate n "1") +:+ newline) = replicate n "1".
Proof.
  unfold tokens, drop_newline, py_split at 2.
  rewrite split_newline_ones. cbn [fst].
  destruct n as [|n]; [reflexivity|].
  rewrite split_blank_ones.
  induction (S n) as [|m IH]; [reflexivity|].
  simpl. f_equal. exact IH.
Qed.

(** ** write_acquisition_parameters *)

Section AcquisitionParameters.
Context `{PyRuntime}.

(** The run of the function once the image is loaded: three checks in
    the order of the code, then the two writes. *)
Lemma write_acquisition_parameters_run in_file image fs :
  nibabel_load in_file = inr image ->
  write_acquisition_parameters in_file fs =
    match parse_descrip (descrip image) with
    | inl e => (fs, inl e)
    | inr d =>
        match phase_encoding_axis d with
        | inl e => (fs, inl e)
        | inr pe_axis =>
            match total_readout_time d with
            | inl e => (fs, inl e)
            | inr trt =>
                (<[index_file := py_join " " (replicate (shape_last image) "1") +:+ newline]>
                   (<[acqp_file := pe_axis +:+ " " +:+ py_str_float trt +:+ newline]> fs),
                 inr (abspath acqp_file, abspath index_file))
            end
        end
    end.
Proof.
  intros Hload. unfold write_acquisition_parameters, io_bind, io_lift.
  rewrite Hload.
  destruct (parse_descrip (descrip image)) as [e|d]; [reflexivity|].
  destruct (phase_encoding_axis d) as [e|pe_axis]; [reflexivity|].
  destruct (total_readout_time d) as [e|trt]; reflexivity.
Qed.

Lemma phase_encoding_axis_valid d sign :
  d !! "phaseDir" = Some sign -> sign = "+" \/ sign = "-" ->
  phase_encoding_axis d = inr (if decide (sign = "+") then "0 1 0" else "0 -1 0").
Proof.
  intros Hd Hsign. unfold phase_encoding_axis. rewrite Hd.
  destruct Hsign as [-> | ->].
  - rewrite decide_True by reflexivity. reflexivity.
  - rewrite decide_False by discriminate.
    rewrite decide_True by reflexivity. reflexivity.
Qed.

(** C1.  When the metadata parsed from the header gives [phaseDir] as
    ["+"] or ["-"] and a [dwell] that [float] reads as the number [dwell],
    the function succeeds and the file [diff.acqp] holds one line: the axis
    ["0 1 0"] for ["+"] and ["0 -1 0"] for ["-"], a blank, and the readout
    time [(128 - 1) * dwell * 1e-3] as Python prints it. *)
Theorem acqp_line_axis_and_readout_time in_file image d sign v dwell fs :
  nibabel_load in_file = inr image ->
  parse_descrip (descrip image) = inr d ->
  d !! "phaseDir" = Some sign -> sign = "+" \/ sign = "-" ->
  d !! "dwell" = Some v -> py_float v = Some dwell ->
  exists fs' paths,
    write_acquisition_parameters in_file fs = (fs', inr paths)
    /\ fs' !! "diff.acqp" =
         Some ((if decide (sign = "+") then "0 1 0" else "0 -1 0") +:+ " "
               +:+ py_str_float (float_of_int (128 - 1) * dwell * 0x1.0624dd2f1a9fcp-10)%float
               +:+ newline).
Proof.
  intros Hload Hparse Hdir Hsign Hdwell Hfloat.
  rewrite (write_acquisition_parameters_run _ _ _ Hload), Hparse.
  rewrite (phase_encoding_axis_valid _ _ Hdir Hsign).
  unfold total_readout_time, py_getitem, float_of_str.
  rewrite Hdwell. cbn [rbind]. rewrite Hfloat. cbn [rbind].
  eexists _, _. split; [reflexivity|].
  rewrite lookup_insert_ne by discriminate.
  rewrite lookup_insert_eq. reflexivity.
Qed.

(** C2.  Whenever the function accepts an image, the file [diff.index]
    holds one line of [N] tokens, each the text [1], a single blank between
    two of them, [N] being the last dimension of the image: its number of
    volumes. *)
Theorem index_line_one_token_per_volume in_file image fs fs' paths :
  nibabel_load in_file = inr image ->
  write_acquisition_parameters in_file fs = (fs', inr paths) ->
  exists line,
    fs' !! "diff.index" = Some line
    /\ line = py_join " " (replicate (shape_last image) "1") +:+ newline
    /\ length (tokens line) = shape_last image
    /\ Forall (fun token => token = "1") (tokens line).
Proof.
  intros Hload. rewrite (write_acquisition_parameters_run _ _ _ Hload).
  destruct (parse_descrip (descrip image)) as [e|d]; [discriminate|].
  destruct (phase_encoding_axis d) as [e|pe_axis]; [discriminate|].
  destruct (total_readout_time d) as [e|trt]; [discriminate|].
  intros [= <- _]. eexists. split; [apply lookup_insert_eq|].
  split; [reflexivity|]. rewrite tokens_index_line. split.
  - apply length_replicate.
  - apply Forall_replicate. reflexivity.
Qed.

(** C3.  When the parsed metadata gives [phaseDir] a value other than
    ["+"] and ["-"], or none, the function raises the [ValueError] of line
    135, the error the specification calls UnsupportedPhaseEncodingError;
    its message ends with the offending value ([None] for an absent key),
    and the files are left as they were. *)
Theorem unsupported_phase_dir_raises in_file image d fs :
  nibabel_load in_file = inr image ->
  parse_descrip (descrip image) = inr d ->
  d !! "phaseDir" <> Some "+" -> d !! "phaseDir" <> Some "-" ->
  write_acquisition_parameters in_file fs =
    (fs, inl (ValueError ("unexpected value for phaseDir: "
                          +:+ match d !! "phaseDir" with
                              | Some value => value
                              | None => "None"
                              end))).
Proof.
  intros Hload Hparse Hplus Hminus.
  rewrite (write_acquisition_parameters_run _ _ _ Hload), Hparse.
  unfold phase_encoding_axis.
  rewrite decide_False by exact Hplus.
  rewrite decide_False by exact Hminus. reflexivity.
Qed.

(** C8.  When [phaseDir] is valid and the value of [dwell] is a text that
    [float] does not read, the function raises the [ValueError] of
    [float], the error the specification calls InvalidDwellTimeError. *)
Theorem unparseable_dwell_raises in_file image d sign v fs :
  nibabel_load in_file = inr image ->
  parse_descrip (descrip image) = inr d ->
  d !! "phaseDir" = Some sign -> sign = "+" \/ sign = "-" ->
  d !! "dwell" = Some v -> py_float v = None ->
  write_acquisition_parameters in_file fs =
    (fs, inl (ValueError ("could not convert string to float: " +:+ py_repr v))).
Proof.
  intros Hload Hparse Hdir Hsign Hdwell Hfloat.
  rewrite (write_acquisition_parameters_run _ _ _ Hload), Hparse.
  rewrite (phase_encoding_axis_valid _ _ Hdir Hsign).
  unfold total_readout_time, py_getitem, float_of_str.
  rewrite Hdwell. cbn [rbind]. rewrite Hfloat. reflexivity.
Qed.

(** An absent [dwell] is a [KeyError], raised at the same place. *)
Lemma absent_dwell_raises in_file image d sign fs :
  nibabel_load in_file = inr image ->
  parse_descrip (descrip image) = inr d ->
  d !! "phaseDir" = Some sign -> sign = "+" \/ sign = "-" ->
  d !! "dwell" = None ->
  write_acquisition_parameters in_file fs = (fs, inl (KeyError "dwell")).
Proof.
  intros Hload Hparse Hdir Hsign Hdwell.
  rewrite (write_acquisition_parameters_run _ _ _ Hload), Hparse.
  rewrite (phase_encoding_axis_valid _ _ Hdir Hsign).
  unfold total_readout_time, py_getitem.
  rewrite Hdwell. reflexivity.
Qed.

(** C9.  A run that ends in an exception, whatever it is, leaves every
    file as it was: neither [diff.acqp] nor [diff.index] is created or
    overwritten, loading, parsing and both checks coming before the first
    write. *)
Theorem failure_writes_nothing in_file fs fs' e :
  write_acquisition_parameters in_file fs = (fs', inl e) -> fs' = fs.
Proof.
  destruct (nibabel_load in_file) as [e0|image] eqn:Hload.
  - unfold write_acquisition_parameters, io_bind, io_lift. rewrite Hload.
    intros [= <- _]. reflexivity.
  - rewrite (write_acquisition_parameters_run _ _ _ Hload).
    destruct (parse_descrip (descrip image)) as [e1|d]; [intros [= <- _]; reflexivity|].
    destruct (phase_encoding_axis d) as [e2|pe_axis]; [intros [= <- _]; reflexivity|].
    destruct (total_readout_time d) as [e3|trt]; [intros [= <- _]; reflexivity|].
    discriminate.
Qed.

End AcquisitionParameters.

(** ** The function on the sample images *)

Lemma acqp_line_axis_and_readout_time_witness :
  exists fs' paths,
    @write_acquisition_parameters sample_runtime "dwi.nii.gz" ∅ = (fs', inr paths)
    /\ fs' !! "diff.acqp" = Some ("0 1 0 0.049530000000000005" +:+ newline).
Proof.
  apply (@acqp_line_axis_and_readout_time sample_runtime "dwi.nii.gz"
           (mkImage [96; 96; 60] 30 "phaseDir=+;dwell=0.39")
           (<["dwell" := "0.39"]> (<["phaseDir" := "+"]> ∅))
           "+" "0.39" 0x1.8f5c28f5c28f6p-2%float ∅).
  - reflexivity.
  - vm_compute. reflexivity.
  - reflexivity.
  - left. reflexivity.
  - reflexivity.
  - reflexivity.
Defined.

Lemma index_line_one_token_per_volume_witness :
  exists line,
    (<["diff.index" := "1 1 1" +:+ newline]>
       (<["diff.acqp" := "0 -1 0 0.09525" +:+ newline]> ∅) : Files) !! "diff.index"
    = Some line
    /\ line = py_join " " (replicate 3 "1") +:+ newline
    /\ length (tokens line) = 3%nat
    /\ Forall (fun token => token = "1") (tokens line).
Proof.
  apply (@index_line_one_token_per_volume sample_runtime "neg.nii.gz"
           (mkImage [96; 96; 60] 3 "phaseDir=-;dwell=0.75") ∅ _
           ("/work/diff.acqp", "/work/diff.index")).
  - reflexivity.
  - vm_compute. reflexivity.
Defined.

Lemma unsupported_phase_dir_raises_witness :
  @write_acquisition_parameters sample_runtime "nodir.nii.gz" ∅ =
    (∅, inl (ValueError "unexpected value for phaseDir: None")).
Proof.
  etrans.
  - apply (@unsupported_phase_dir_raises sample_runtime "nodir.nii.gz"
             (mkImage [96; 96; 60] 30 "dwell=0.39") (<["dwell" := "0.39"]> ∅) ∅).
    + reflexivity.
    + vm_compute. reflexivity.
    + vm_compute. discriminate.
    + vm_compute. discriminate.
  - vm_compute. reflexivity.
Defined.

Lemma unparseable_dwell_raises_witness :
  @write_acquisition_parameters sample_runtime "text.nii.gz" ∅ =
    (∅, inl (ValueError "could not convert string to float: 'fast'")).
Proof.
  apply (@unparseable_dwell_raises sample_runtime "text.nii.gz"
           (mkImage [96; 96; 60] 30 "phaseDir=+;dwell=fast")
           (<["dwell" := "fast"]> (<["phaseDir" := "+"]> ∅)) "+" "fast" ∅).
  - reflexivity.
  - vm_compute. reflexivity.
  - reflexivity.
  - left. reflexivity.
  - reflexivity.
  - reflexivity.
Defined.

Lemma failure_writes_nothing_witness :
  fst (@write_acquisition_parameters sample_runtime "bare.nii.gz"
         (<["diff.acqp" := "kept"]> ∅))
  = <["diff.acqp" := "kept"]> ∅.
Proof.
  apply (@failure_writes_nothing sample_runtime "bare.nii.gz"
           (<["diff.acqp" := "kept"]> ∅) _
           (ValueError "dictionary update sequence element #2 has length 1; 2 is required")).
  vm_compute. reflexivity.
Defined.

(** Each data error on a sample image, with files already present. *)
Example data_errors_keep_the_files :
  let fs : Files := <["diff.index" := "old"]> (<["diff.acqp" := "old"]> ∅) in
  Forall (fun in_file =>
            exists e, @write_acquisition_parameters sample_runtime in_file fs = (fs, inl e))
         ["bare.nii.gz"; "row.nii.gz"; "nodir.nii.gz"; "text.nii.gz"; "nodwell.nii.gz"].
Proof. repeat constructor; eexists; vm_compute; reflexivity. Qed.

(** The end-to-end example of the specification: 30 volumes, metadata
    [phaseDir=+;dwell=0.39]. *)
Example thirty_volumes :
  @write_acquisition_parameters sample_runtime "dwi.nii.gz" ∅ =
    (<["diff.index" := py_join " " (replicate 30 "1") +:+ newline]>
       (<["diff.acqp" := "0 1 0 0.049530000000000005" +:+ newline]> ∅),
     inr ("/work/diff.acqp", "/work/diff.index")).
Proof. vm_compute. reflexivity. Qed.

(** ** run_wf *)

(** C10, as amended.  With [n_cpus <= 1] the workflow is run by the plain
    [wf.run()], whatever the plugin; the MultiProc call, with [n_cpus] as its
    [n_procs], is made exactly when the plugin is ["MultiProc"] and
    [n_cpus > 1]; another plugin whose name is not empty is, with
    [n_cpus > 1], run by [wf.run(plugin=plugin, **plugin_kwargs)]; and a
    plugin that is [None] or the empty text is run by the plain [wf.run()],
    whatever [n_cpus] is. *)
Theorem run_wf_branches (plugin : option string) (n_cpus : Z)
  (plugin_kwargs : list (string * string)) :
  ((n_cpus <= 1)%Z -> run_wf plugin n_cpus plugin_kwargs = RunDefault)
  /\ (forall n, run_wf plugin n_cpus plugin_kwargs = RunMultiProc n
                <-> plugin = Some "MultiProc" /\ (1 < n_cpus)%Z /\ n = n_cpus)
  /\ (forall name, plugin = Some name -> name <> "MultiProc" -> name <> "" ->
                   (1 < n_cpus)%Z ->
                   run_wf plugin n_cpus plugin_kwargs = RunPlugin (Some name) plugin_kwargs)
  /\ (plugin = None \/ plugin = Some "" ->
      run_wf plugin n_cpus plugin_kwargs = RunDefault).
Proof.
  unfold run_wf. split; [|split; [|split]].
  - intros Hn. replace (1 <? n_cpus)%Z with false by (symmetry; apply Z.ltb_ge; lia).
    replace (n_cpus <=? 1)%Z with true by (symmetry; apply Z.leb_le; lia).
    rewrite andb_false_r, orb_true_r. reflexivity.
  - intros n. split.
    + destruct (bool_decide (plugin = Some "MultiProc")) eqn:Hp;
        destruct (1 <? n_cpus)%Z eqn:Hn; simpl;
        try (destruct (py_not plugin || bool_decide (plugin = None) || (n_cpus <=? 1)%Z);
             discriminate).
      intros [= <-]. apply bool_decide_eq_true in Hp. apply Z.ltb_lt in Hn. auto.
    + intros (-> & Hn & ->). apply Z.ltb_lt in Hn. rewrite Hn.
      rewrite bool_decide_eq_true_2 by reflexivity. reflexivity.
  - intros name -> Hmp Hne Hn.
    rewrite bool_decide_eq_false_2 by congruence. simpl.
    destruct name as [|c r]; [contradiction|]. simpl.
    replace (n_cpus <=? 1)%Z with false by (symmetry; apply Z.leb_gt; lia).
    reflexivity.
  - intros [-> | ->]; reflexivity.
Qed.

Lemma run_wf_branches_witness :
  run_wf (Some "Linear") 0 [] = RunDefault
  /\ run_wf (Some "MultiProc") 4 [] = RunMultiProc 4
  /\ run_wf (Some "PBS") 4 [("plugin_args", "{'qsub_args': '-q many'}")]
     = RunPlugin (Some "PBS") [("plugin_args", "{'qsub_args': '-q many'}")]
  /\ run_wf None 4 [] = RunDefault.
Proof.
  split; [|split; [|split]].
  - apply (proj1 (run_wf_branches (Some "Linear") 0 [])). lia.
  - apply (proj1 (proj2 (run_wf_branches (Some "MultiProc") 4 []))).
    repeat split.
  - apply (proj1 (proj2 (proj2 (run_wf_branches (Some "PBS") 4
             [("plugin_args", "{'qsub_args': '-q many'}")])))).
    + reflexivity.
    + discriminate.
    + discriminate.
    + reflexivity.
  - apply (proj2 (proj2 (proj2 (run_wf_branches None 4 [])))). left. reflexivity.
Defined.

(** C10, as stated, fails on the empty plugin: it is another plugin than
    ["MultiProc"], [n_cpus] is 2, and the call is the plain [wf.run()], the
    plugin and its keyword arguments left out. *)
Lemma run_wf_empty_plugin :
  Some "" <> Some "MultiProc" /\ (1 < 2)%Z
  /\ run_wf (Some "") 2 [("updatehash", "True")] = RunDefault
  /\ run_wf (Some "") 2 [("updatehash", "True")]
     <> RunPlugin (Some "") [("updatehash", "True")].
Proof. repeat split; discriminate. Qed.

(** ** The engine *)

Lemma valid_name_plain `{Engine} name :
  valid_name name = true -> has_char "."%char name = false.
Proof.
  intros Hvalid. destruct (has_char "."%char name) eqn:Hperiod; [|reflexivity].
  rewrite (valid_name_period _ Hperiod) in Hvalid. discriminate.
Qed.

Lemma same_node_refl : forall n, same_node n n = true.
Proof.
  fix IH 1. intros [name i it|name b ns cs]; cbn [same_node].
  - rewrite !bool_decide_eq_true_2 by reflexivity. reflexivity.
  - rewrite !bool_decide_eq_true_2 by reflexivity. cbn [andb].
    induction ns as [|a r IHr]; [reflexivity|]. rewrite IH, IHr. reflexivity.
Qed.

Lemma same_node_connections name base_dir nodes connections name' base_dir' nodes'
      connections' :
  connections <> connections' ->
  same_node (Workflow name base_dir nodes connections)
            (Workflow name' base_dir' nodes' connections') = false.
Proof.
  intros Hdiffer. cbn [same_node]. rewrite (bool_decide_eq_false_2 _ Hdiffer).
  rewrite andb_false_r. reflexivity.
Qed.

Lemma add_node_held nodes n :
  existsb (fun x => same_node x n) nodes = true -> add_node nodes n = nodes.
Proof. intros Hheld. unfold add_node. rewrite Hheld. reflexivity. Qed.

Lemma add_node_fresh nodes n :
  existsb (fun x => same_node x n) nodes = false -> add_node nodes n = app nodes [n].
Proof. intros Hfresh. unfold add_node. rewrite Hfresh. reflexivity. Qed.

(** Settles that a list of nodes holds one of them. *)
Ltac held :=
  cbn [existsb];
  repeat first [ rewrite same_node_refl | rewrite orb_true_r | progress cbn [orb] ];
  reflexivity.

(** ** Iteration over subjects and sessions *)

Lemma expand_axes_empty_axis axes field :
  In (field, []) axes -> expand_axes axes = [].
Proof.
  induction axes as [|[f values] rest IH]; simpl; [contradiction|].
  intros [Hhere|Hrest].
  - injection Hhere as -> ->. reflexivity.
  - rewrite (IH Hrest). induction values as [|v values IHv]; [reflexivity|exact IHv].
Qed.

Lemma expand_axes_length axes :
  length (expand_axes axes) = foldr (fun a n => (length (snd a) * n)%nat) 1%nat axes.
Proof.
  induction axes as [|[f values] rest IH]; [reflexivity|].
  cbn [expand_axes foldr snd]. rewrite <- IH. clear IH.
  induction values as [|v values IHv]; [reflexivity|].
  cbn [flat_map length]. rewrite length_app, length_map.
  cbn [Nat.mul]. f_equal. exact IHv.
Qed.

Lemma axes_of_lists axes :
  axes_of (map (fun a => (fst a, Some (snd a))) axes) = inr axes.
Proof.
  induction axes as [|[f values] rest IH]; simpl; [reflexivity|].
  rewrite IH. reflexivity.
Qed.

Lemma check_inputs_fields (fields done : list string) :
  check_inputs (map (fun f => mkConnection "infosrc" f None "select" f) done)
               (map (fun f => mkConnection "infosrc" f None "select" f) fields)
  = inr tt
  <-> NoDup fields /\ forall f, f ∈ fields -> f ∉ done.
Proof.
  revert done. induction fields as [|f rest IH]; intros done.
  - split; [|reflexivity]. intros _. split; [constructor|]. intros f Hf. inversion Hf.
  - cbn [map check_inputs].
    set (seen := existsb _ _).
    assert (Hseen : seen = true <-> f ∈ done).
    { subst seen. rewrite existsb_exists. split.
      - intros (c & Hc & Hdst). apply in_map_iff in Hc as (g & <- & Hg).
        cbn in Hdst. apply andb_true_iff in Hdst as [_ Hport].
        apply bool_decide_eq_true in Hport as ->. apply list_elem_of_In, Hg.
      - intros Hf. exists (mkConnection "infosrc" f None "select" f). split.
        + apply in_map_iff. exists f. split; [reflexivity|]. apply list_elem_of_In, Hf.
        + cbn. rewrite !bool_decide_eq_true_2 by reflexivity. reflexivity. }
    destruct seen.
    + split; [discriminate|]. intros [_ Hfresh].
      exfalso. apply (Hfresh f); [left|]. apply Hseen. reflexivity.
    + change (app (map (fun f0 => mkConnection "infosrc" f0 None "select" f0) done)
                  [mkConnection "infosrc" f None "select" f])
        with (app (map (fun f0 => mkConnection "infosrc" f0 None "select" f0) done)
                  (map (fun f0 => mkConnection "infosrc" f0 None "select" f0) [f])).
      rewrite <- map_app, IH. split.
      * intros [Hnodup Hfresh]. split.
        -- apply NoDup_cons. split; [|exact Hnodup].
           intros Hin. apply (Hfresh f Hin). apply elem_of_app. right. left.
        -- intros g Hg Hdone. apply elem_of_cons in Hg as [->|Hg].
           ++ assert (false = true) by (apply Hseen, Hdone). discriminate.
           ++ apply (Hfresh g Hg). apply elem_of_app. left. exact Hdone.
      * intros [Hnodup Hfresh]. apply NoDup_cons in Hnodup as [Hf Hnodup].
        split; [exact Hnodup|]. intros g Hg Hdone.
        apply elem_of_app in Hdone as [Hdone|Hdone].
        -- apply (Hfresh g); [right; exact Hg|exact Hdone].
        -- apply list_elem_of_singleton in Hdone as ->. exact (Hf Hg).
Qed.

(** What [input_file_wf] does, check after check. *)
Lemma input_file_wf_run `{Engine} work_dir data_dir field_iterables file_templates
      wf_name :
  input_file_wf work_dir data_dir field_iterables file_templates wf_name
  = if valid_name wf_name then
      match field_iterables with
      | [] => inl no_fields
      | _ :: _ =>
          if isdir data_dir then
            match check_inputs [] (map (fun f => mkConnection "infosrc" f None "select" f)
                                       (map fst field_iterables)) with
            | inl e => inl e
            | inr _ =>
                inr (Workflow wf_name (Some work_dir)
                       [Leaf "infosrc" (IdentityInterface (map fst field_iterables))
                             field_iterables;
                        Leaf "select" (SelectFiles file_templates data_dir) []]
                       (map (fun f => mkConnection "infosrc" f None "select" f)
                            (map fst field_iterables)))
            end
          else inl (no_directory data_dir)
      end
    else inl (invalid_name wf_name).
Proof.
  unfold input_file_wf, pe_Workflow.
  destruct (valid_name wf_name); [|reflexivity]. cbn [rbind].
  destruct field_iterables as [|axis axes]; [reflexivity|].
  set (field_iterables := axis :: axes).
  change (new_IdentityInterface (map fst field_iterables))
    with (inr (IdentityInterface (map fst field_iterables)) : Result Interface).
  cbn [rbind]. unfold new_SelectFiles.
  destruct (isdir data_dir); [|reflexivity]. cbn [rbind]. unfold connect.
  set (infosrc := set_iterables _ _). set (select := pe_Node _ _).
  change (wired_to_itself _ _) with false. cbn iota.
  assert (Hnew : new_nodes (Workflow wf_name (Some work_dir) [] [])
                   [(infosrc, select, map (fun field => (out field, field))
                                          (map fst field_iterables))]
                 = [infosrc; select]) by reflexivity.
  rewrite Hnew. clear Hnew.
  assert (Hnames : check_nodes wf_name [] [] [infosrc; select] = inr tt) by reflexivity.
  cbn [map]. rewrite Hnames. clear Hnames. cbn [rbind app].
  assert (Hends : with_end_points [infosrc; select]
                    [(infosrc, select, map (fun field => (out field, field))
                                           (map fst field_iterables))]
                  = [infosrc; select]).
  { unfold with_end_points. cbn [foldl fst snd].
    rewrite (add_node_held [infosrc; select] infosrc) by held.
    apply add_node_held. held. }
  rewrite Hends. clear Hends.
  cbn [flat_map]. rewrite app_nil_r.
  unfold edges_of. cbn [fst snd]. rewrite map_map. cbn [fst snd out].
  change (node_name infosrc) with "infosrc". change (node_name select) with "select".
  destruct (check_inputs [] _) as [e|[]]; reflexivity.
Qed.

(** The workflow [input_file_wf] gives back: the node [infosrc], that
    carries the iterables, and the node [select]. *)
Lemma input_file_wf_nodes `{Engine} work_dir data_dir field_iterables file_templates
      wf_name wf :
  input_file_wf work_dir data_dir field_iterables file_templates wf_name = inr wf ->
  has_char "."%char wf_name = false
  /\ wf = Workflow wf_name (Some work_dir)
            [Leaf "infosrc" (IdentityInterface (map fst field_iterables)) field_iterables;
             Leaf "select" (SelectFiles file_templates data_dir) []]
            (map (fun field => mkConnection "infosrc" field None "select" field)
                 (map fst field_iterables)).
Proof.
  rewrite input_file_wf_run.
  destruct (valid_name wf_name) eqn:Hname; [|discriminate].
  destruct field_iterables as [|axis axes]; [discriminate|].
  destruct (isdir data_dir); [|discriminate].
  destruct (check_inputs [] _) as [e|[]]; [discriminate|].
  intros [= <-]. split; [apply valid_name_plain, Hname|reflexivity].
Qed.

Lemma expand_input_file_wf `{Engine} work_dir data_dir field_iterables file_templates
      wf_name wf :
  input_file_wf work_dir data_dir field_iterables file_templates wf_name = inr wf ->
  expand wf = rbind (axes_of field_iterables) (fun axes => inr (expand_axes axes)).
Proof.
  intros Hwf. apply input_file_wf_nodes in Hwf as [_ ->].
  unfold expand. cbn [list_nodes app flat_map iterables_of snd].
  rewrite app_nil_r. reflexivity.
Qed.

Section Iteration.
Context `{Engine} `{Helpers}.

Lemma subject_session_input_fields base_dir session_names file_names subject_ids
      subj_ids wf_name :
  check_list subject_ids = Some subj_ids ->
  exists files,
    subject_session_input base_dir session_names file_names subject_ids wf_name
    = input_file_wf base_dir base_dir
        [("session_id", session_names); ("subject_id", Some subj_ids)] files wf_name.
Proof.
  intros Hids. unfold subject_session_input. rewrite Hids. cbn [rbind].
  eexists. reflexivity.
Qed.

(** C6.  The input workflow built for the subjects [S1], [S2] and the
    session [s0] expands to exactly two instances, whose name spaces
    differ; and a workflow built by [input_file_wf] on axes one of which
    has no value expands to no instance, and that is no error. *)
Theorem expansion_of_iteration_axes :
  (forall base_dir file_names wf_name wf,
      check_list (Some ["S1"; "S2"]) = Some ["S1"; "S2"] ->
      subject_session_input base_dir (Some ["s0"]) file_names (Some ["S1"; "S2"]) wf_name
      = inr wf ->
      exists instances,
        expand wf = inr instances /\ length instances = 2%nat
        /\ NoDup (map instance_namespace instances))
  /\ (forall work_dir data_dir axes field file_templates wf_name wf,
         In (field, []) axes ->
         input_file_wf work_dir data_dir (map (fun a => (fst a, Some (snd a))) axes)
                       file_templates wf_name = inr wf ->
         expand wf = inr []).
Proof.
  split.
  - intros base_dir file_names wf_name wf Hids Hwf.
    destruct (subject_session_input_fields base_dir (Some ["s0"]) file_names _ _ wf_name Hids)
      as [files Hfields].
    rewrite Hfields in Hwf. apply expand_input_file_wf in Hwf.
    eexists. split; [exact Hwf|]. split; [reflexivity|].
    cbn. apply NoDup_cons. split.
    + intros Hin. apply list_elem_of_singleton in Hin. discriminate.
    + apply NoDup_singleton.
  - intros work_dir data_dir axes field file_templates wf_name wf Hempty Hwf.
    apply expand_input_file_wf in Hwf. rewrite Hwf, axes_of_lists. cbn [rbind].
    rewrite (expand_axes_empty_axis _ _ Hempty). reflexivity.
Qed.

End Iteration.

Lemma expansion_of_iteration_axes_witness :
  (exists instances,
      expand (Workflow "input_files" (Some "/data")
                [Leaf "infosrc" (IdentityInterface ["session_id"; "subject_id"])
                   [("session_id", Some ["s0"]); ("subject_id", Some ["S1"; "S2"])];
                 Leaf "select"
                   (SelectFiles (<["diff" := "{subject_id}/{session_id}/diff.nii.gz"]> ∅)
                                "/data") []]
                [mkConnection "infosrc" "session_id" None "select" "session_id";
                 mkConnection "infosrc" "subject_id" None "select" "subject_id"])
      = inr instances /\ length instances = 2%nat
      /\ NoDup (map instance_namespace instances))
  /\ expand (Workflow "input_files" (Some "/work")
               [Leaf "infosrc" (IdentityInterface ["session_id"; "subject_id"])
                  [("session_id", Some ["s0"]); ("subject_id", Some [])];
                Leaf "select" (SelectFiles ∅ "/data") []]
               [mkConnection "infosrc" "session_id" None "select" "session_id";
                mkConnection "infosrc" "subject_id" None "select" "subject_id"])
     = inr [].
Proof.
  split.
  - apply (proj1 (@expansion_of_iteration_axes sample_engine sample_helpers) "/data"
             ["diff.nii.gz"] "input_files").
    + reflexivity.
    + vm_compute. reflexivity.
  - apply (proj2 (@expansion_of_iteration_axes sample_engine sample_helpers) "/work" "/data"
             [("session_id", ["s0"]); ("subject_id", [])] "subject_id" ∅ "input_files").
    + right. left. reflexivity.
    + vm_compute. reflexivity.
Defined.

(** ** The container of the datasink *)

Lemma get_node_plain name base_dir nodes connections target :
  has_char "."%char target = false ->
  get_node (Workflow name base_dir nodes connections) target
  = List.find (fun x => bool_decide (node_name x = target)) nodes.
Proof.
  intros Hplain. cbn [get_node]. rewrite (split_once_absent _ _ Hplain). cbn [hd].
  induction nodes as [|x rest IH]; [reflexivity|].
  cbn [List.find]. destruct (bool_decide (node_name x = target)); [|exact IH].
  destruct x; reflexivity.
Qed.

Lemma app_nil_string (x : string) : "" +:+ x = x.
Proof. reflexivity. Qed.

Lemma app_cons_string (c : ascii) (r x : string) : String c r +:+ x = String c (r +:+ x).
Proof. reflexivity. Qed.

Lemma joined_path_inj s t s' t' :
  has_char "/"%char s = false -> has_char "/"%char s' = false ->
  joined_path s t = joined_path s' t' -> s = s' /\ t = t'.
Proof.
  unfold joined_path. revert s'.
  induction s as [|c r IH]; intros [|c' r'] Hs Hs' Heq; cbn in Hs, Hs';
    rewrite ?app_cons_string, ?app_nil_string in Heq.
  - injection Heq as ->. auto.
  - injection Heq as <- _. cbn in Hs'. discriminate.
  - injection Heq as -> _. cbn in Hs. discriminate.
  - injection Heq as -> Heq.
    apply orb_false_iff in Hs as [_ Hs]. apply orb_false_iff in Hs' as [_ Hs'].
    destruct (IH r' Hs Hs' Heq) as [-> ->]. auto.
Qed.

Lemma output_value_step fuel inst wf node port :
  output_value (S fuel) inst wf node port =
    match get_node wf node with
    | Some (Leaf _ (IdentityInterface fields) iterables) =>
        if bool_decide (port ∈ fields) then
          if bool_decide (port ∈ map fst iterables) then assoc port inst
          else input_value fuel inst wf node port
        else None
    | Some (Leaf _ JoinPaths _) =>
        if bool_decide (port = "out") then
          match input_value fuel inst wf node "arg1",
                input_value fuel inst wf node "arg2" with
          | Some arg1, Some arg2 => Some (joined_path arg1 arg2)
          | _, _ => None
          end
        else None
    | Some (Workflow _ _ _ _ as sub) =>
        match py_split "."%char (Some 1) port with
        | [inner; p] => output_value fuel inst sub inner p
        | _ => None
        end
    | _ => None
    end.
Proof. reflexivity. Qed.

(** Decides the comparisons of names that are literals or known to differ. *)
Ltac decide_names :=
  repeat first
    [ rewrite bool_decide_eq_true_2 by reflexivity
    | rewrite bool_decide_eq_false_2 by (discriminate || congruence) ];
  cbn [andb orb].

Section Container.
Context `{Engine} `{Helpers}.

Lemma subject_session_input_nodes base_dir session_names file_names subject_ids
      wf_name wf :
  subject_session_input base_dir session_names file_names subject_ids wf_name = inr wf ->
  has_char "."%char wf_name = false
  /\ exists subj_ids files,
       wf = Workflow wf_name (Some base_dir)
              [Leaf "infosrc" (IdentityInterface ["session_id"; "subject_id"])
                 [("session_id", session_names); ("subject_id", Some subj_ids)];
               Leaf "select" (SelectFiles files base_dir) []]
              [mkConnection "infosrc" "session_id" None "select" "session_id";
               mkConnection "infosrc" "subject_id" None "select" "subject_id"].
Proof.
  unfold subject_session_input.
  destruct (check_list subject_ids) as [ids|]; cbn [rbind];
    [|destruct (os_listdir base_dir) as [e|paths]; [discriminate|]; cbn [rbind]];
    intros Hwf; apply input_file_wf_nodes in Hwf as [Hname ->];
    (split; [exact Hname|]); eexists _, _; reflexivity.
Qed.

(** What [in_out_workflow] does once its name is accepted and the input
    workflow is built. *)
Lemma in_out_workflow_run_with_sessions work_dir data_dir output_dir file_names sessions
      subject_ids input_wf_name wf_name input_wf :
  valid_name wf_name = true ->
  subject_session_input data_dir (Some sessions) file_names subject_ids input_wf_name
  = inr input_wf ->
  in_out_workflow work_dir data_dir output_dir file_names (Some sessions) subject_ids
                  input_wf_name wf_name
  = if bool_decide (input_wf_name = "joinpath") then inl (duplicate_node "joinpath")
    else if bool_decide (input_wf_name = "datasink") then inl (duplicate_node "datasink")
    else
      inr (Workflow wf_name (Some work_dir)
             [input_wf;
              Leaf "joinpath" JoinPaths [];
              Leaf "datasink"
                   (DataSink false output_dir
                      (extend_trait_list None [("_subject_id", ""); ("_session_id_", "")]))
                   []]
             [mkConnection input_wf_name "infosrc.subject_id" None "joinpath" "arg1";
              mkConnection input_wf_name "infosrc.session_id" None "joinpath" "arg2";
              mkConnection "joinpath" "out" None "datasink" "container"]).
Proof.
  intros Hname Hin. unfold in_out_workflow, pe_Workflow. rewrite Hname, Hin.
  cbn [rbind].
  apply subject_session_input_nodes in Hin as (_ & subj_ids & files & ->).
  unfold connect.
  assert (Hself : forall connections,
             connections <> [] ->
             same_node (Workflow wf_name (Some work_dir) [] [])
                       (Workflow input_wf_name (Some data_dir)
                          [Leaf "infosrc" (IdentityInterface ["session_id"; "subject_id"])
                             [("session_id", Some sessions); ("subject_id", Some subj_ids)];
                           Leaf "select" (SelectFiles files data_dir) []]
                          connections) = false).
  { intros cs Hcs. apply same_node_connections. congruence. }
  unfold wired_to_itself. cbn [existsb fst snd].
  rewrite Hself by discriminate. cbn [same_node orb]. clear Hself.
  set (input_wf := Workflow input_wf_name _ _ _).
  set (joinpath := pe_Node joinpaths "joinpath").
  set (datasink := pe_Node (DataSink _ _ _) "datasink").
  assert (Hnew : new_nodes (Workflow wf_name (Some work_dir) [] [])
                   [(input_wf, joinpath, [(out "infosrc.subject_id", "arg1");
                                          (out "infosrc.session_id", "arg2")]);
                    (joinpath, datasink, [(out "out", "container")])]
                 = [input_wf; joinpath; datasink]) by reflexivity.
  rewrite Hnew. clear Hnew.
  assert (Hends : with_end_points (app [] [input_wf; joinpath; datasink])
                    [(input_wf, joinpath, [(out "infosrc.subject_id", "arg1");
                                           (out "infosrc.session_id", "arg2")]);
                     (joinpath, datasink, [(out "out", "container")])]
                  = [input_wf; joinpath; datasink]).
  { unfold with_end_points. cbn [foldl fst snd app].
    rewrite (add_node_held _ input_wf) by held.
    rewrite (add_node_held _ joinpath) by held.
    rewrite (add_node_held _ joinpath) by held.
    apply add_node_held. held. }
  rewrite Hends. clear Hends.
  cbn [map check_nodes List.find app].
  change (node_name input_wf) with input_wf_name.
  change (node_name joinpath) with "joinpath".
  change (node_name datasink) with "datasink".
  rewrite (bool_decide_eq_false_2 (input_wf_name ∈ [])) by (intros Hin; inversion Hin).
  destruct (decide (input_wf_name = "joinpath")) as [Hjoin|Hjoin].
  { rewrite (bool_decide_eq_true_2 _ Hjoin).
    rewrite bool_decide_eq_true_2 by (rewrite Hjoin; left). reflexivity. }
  rewrite (bool_decide_eq_false_2 (input_wf_name = "joinpath")) by exact Hjoin.
  rewrite (bool_decide_eq_false_2 ("joinpath" ∈ [input_wf_name]))
    by (intros Hin; apply list_elem_of_singleton in Hin; congruence).
  destruct (decide (input_wf_name = "datasink")) as [Hsink|Hsink].
  { rewrite (bool_decide_eq_true_2 _ Hsink).
    rewrite bool_decide_eq_true_2 by (rewrite Hsink; left). reflexivity. }
  rewrite (bool_decide_eq_false_2 (input_wf_name = "datasink")) by exact Hsink.
  rewrite (bool_decide_eq_false_2 ("datasink" ∈ [input_wf_name; "joinpath"])).
  2:{ intros Hin. apply elem_of_cons in Hin as [Hin|Hin]; [congruence|].
      apply list_elem_of_singleton in Hin. discriminate. }
  cbn [rbind]. reflexivity.
Qed.

Lemma in_out_workflow_run_without_sessions work_dir data_dir output_dir file_names
      subject_ids input_wf_name wf_name input_wf :
  valid_name wf_name = true ->
  subject_session_input data_dir None file_names subject_ids input_wf_name
  = inr input_wf ->
  in_out_workflow work_dir data_dir output_dir file_names None subject_ids
                  input_wf_name wf_name
  = if bool_decide (input_wf_name = "datasink") then inl (duplicate_node "datasink")
    else
      inr (Workflow wf_name (Some work_dir)
             [input_wf;
              Leaf "datasink"
                   (DataSink false output_dir (extend_trait_list None [("_subject_id", "")]))
                   []]
             [mkConnection input_wf_name "infosrc.subject_id" None "datasink" "container"]).
Proof.
  intros Hname Hin. unfold in_out_workflow, pe_Workflow. rewrite Hname, Hin.
  cbn [rbind].
  apply subject_session_input_nodes in Hin as (_ & subj_ids & files & ->).
  unfold connect.
  assert (Hself : forall connections,
             connections <> [] ->
             same_node (Workflow wf_name (Some work_dir) [] [])
                       (Workflow input_wf_name (Some data_dir)
                          [Leaf "infosrc" (IdentityInterface ["session_id"; "subject_id"])
                             [("session_id", None); ("subject_id", Some subj_ids)];
                           Leaf "select" (SelectFiles files data_dir) []]
                          connections) = false).
  { intros cs Hcs. apply same_node_connections. congruence. }
  unfold wired_to_itself. cbn [existsb fst snd].
  rewrite Hself by discriminate. cbn [same_node orb]. clear Hself.
  set (input_wf := Workflow input_wf_name _ _ _).
  set (datasink := pe_Node (DataSink _ _ _) "datasink").
  assert (Hnew : new_nodes (Workflow wf_name (Some work_dir) [] [])
                   [(input_wf, datasink, [(out "infosrc.subject_id", "container")])]
                 = [input_wf; datasink]) by reflexivity.
  rewrite Hnew. clear Hnew.
  assert (Hends : with_end_points (app [] [input_wf; datasink])
                    [(input_wf, datasink, [(out "infosrc.subject_id", "container")])]
                  = [input_wf; datasink]).
  { unfold with_end_points. cbn [foldl fst snd app].
    rewrite (add_node_held _ input_wf) by held.
    apply add_node_held. held. }
  rewrite Hends. clear Hends.
  cbn [map check_nodes List.find app].
  change (node_name input_wf) with input_wf_name.
  change (node_name datasink) with "datasink".
  rewrite (bool_decide_eq_false_2 (input_wf_name ∈ [])) by (intros Hin; inversion Hin).
  destruct (decide (input_wf_name = "datasink")) as [Hsink|Hsink].
  { rewrite (bool_decide_eq_true_2 _ Hsink).
    rewrite bool_decide_eq_true_2 by (rewrite Hsink; left). reflexivity. }
  rewrite (bool_decide_eq_false_2 (input_wf_name = "datasink")) by exact Hsink.
  rewrite (bool_decide_eq_false_2 ("datasink" ∈ [input_wf_name]))
    by (intros Hin; apply list_elem_of_singleton in Hin; congruence).
  cbn [rbind]. reflexivity.
Qed.

(** What [in_out_workflow] needs to return a workflow. *)
Lemma in_out_workflow_inputs work_dir data_dir output_dir file_names session_names
      subject_ids input_wf_name wf_name main_wf :
  in_out_workflow work_dir data_dir output_dir file_names session_names subject_ids
                  input_wf_name wf_name = inr main_wf ->
  valid_name wf_name = true
  /\ exists input_wf,
       subject_session_input data_dir session_names file_names subject_ids input_wf_name
       = inr input_wf.
Proof.
  unfold in_out_workflow, pe_Workflow.
  destruct (valid_name wf_name); [|discriminate]. cbn [rbind].
  destruct (subject_session_input _ _ _ _ _) as [e|input_wf]; [discriminate|].
  intros _. eauto.
Qed.

Lemma in_out_workflow_with_sessions work_dir data_dir output_dir file_names sessions
      subject_ids input_wf_name wf_name main_wf :
  in_out_workflow work_dir data_dir output_dir file_names (Some sessions) subject_ids
                  input_wf_name wf_name = inr main_wf ->
  has_char "."%char input_wf_name = false
  /\ input_wf_name <> "joinpath" /\ input_wf_name <> "datasink"
  /\ exists subj_ids files sink,
       main_wf =
         Workflow wf_name (Some work_dir)
           [Workflow input_wf_name (Some data_dir)
              [Leaf "infosrc" (IdentityInterface ["session_id"; "subject_id"])
                 [("session_id", Some sessions); ("subject_id", Some subj_ids)];
               Leaf "select" (SelectFiles files data_dir) []]
              [mkConnection "infosrc" "session_id" None "select" "session_id";
               mkConnection "infosrc" "subject_id" None "select" "subject_id"];
            Leaf "joinpath" JoinPaths [];
            Leaf "datasink" sink []]
           [mkConnection input_wf_name "infosrc.subject_id" None "joinpath" "arg1";
            mkConnection input_wf_name "infosrc.session_id" None "joinpath" "arg2";
            mkConnection "joinpath" "out" None "datasink" "container"].
Proof.
  intros Hwf.
  destruct (in_out_workflow_inputs _ _ _ _ _ _ _ _ _ Hwf) as (Hname & input_wf & Hin).
  rewrite (in_out_workflow_run_with_sessions _ _ _ _ _ _ _ _ _ Hname Hin) in Hwf.
  apply subject_session_input_nodes in Hin as (Hplain & subj_ids & files & ->).
  destruct (bool_decide (input_wf_name = "joinpath")) eqn:Hjoin; [discriminate|].
  destruct (bool_decide (input_wf_name = "datasink")) eqn:Hsink; [discriminate|].
  apply bool_decide_eq_false in Hjoin, Hsink. injection Hwf as <-.
  split; [exact Hplain|]. split; [exact Hjoin|]. split; [exact Hsink|].
  eexists _, _, _. reflexivity.
Qed.

Lemma in_out_workflow_without_sessions work_dir data_dir output_dir file_names
      subject_ids input_wf_name wf_name main_wf :
  in_out_workflow work_dir data_dir output_dir file_names None subject_ids
                  input_wf_name wf_name = inr main_wf ->
  has_char "."%char input_wf_name = false
  /\ input_wf_name <> "datasink"
  /\ exists subj_ids files sink,
       main_wf =
         Workflow wf_name (Some work_dir)
           [Workflow input_wf_name (Some data_dir)
              [Leaf "infosrc" (IdentityInterface ["session_id"; "subject_id"])
                 [("session_id", None); ("subject_id", Some subj_ids)];
               Leaf "select" (SelectFiles files data_dir) []]
              [mkConnection "infosrc" "session_id" None "select" "session_id";
               mkConnection "infosrc" "subject_id" None "select" "subject_id"];
            Leaf "datasink" sink []]
           [mkConnection input_wf_name "infosrc.subject_id" None "datasink" "container"].
Proof.
  intros Hwf.
  destruct (in_out_workflow_inputs _ _ _ _ _ _ _ _ _ Hwf) as (Hname & input_wf & Hin).
  rewrite (in_out_workflow_run_without_sessions _ _ _ _ _ _ _ _ Hname Hin) in Hwf.
  apply subject_session_input_nodes in Hin as (Hplain & subj_ids & files & ->).
  destruct (bool_decide (input_wf_name = "datasink")) eqn:Hsink; [discriminate|].
  apply bool_decide_eq_false in Hsink. injection Hwf as <-.
  split; [exact Hplain|]. split; [exact Hsink|].
  eexists _, _, _. reflexivity.
Qed.
Lemma output_of_infosrc fuel inst name base_dir sessions subj_ids other connections
      field value :
  field ∈ ["session_id"; "subject_id"] ->
  assoc field inst = Some value ->
  output_value (S fuel) inst
    (Workflow name base_dir
       (Leaf "infosrc" (IdentityInterface ["session_id"; "subject_id"])
             [("session_id", sessions); ("subject_id", Some subj_ids)] :: other)
       connections)
    "infosrc" field
  = Some value.
Proof.
  intros Hfield Hvalue. cbn [output_value].
  rewrite get_node_plain by reflexivity. cbn [List.find node_name].
  rewrite bool_decide_eq_true_2 by reflexivity.
  rewrite bool_decide_eq_true_2 by exact Hfield.
  rewrite bool_decide_eq_true_2 by exact Hfield.
  exact Hvalue.
Qed.

Lemma output_of_input_wf fuel inst name base_dir input_wf_name data_dir sessions
      subj_ids inner inner_connections other connections field value :
  has_char "."%char input_wf_name = false ->
  field ∈ ["session_id"; "subject_id"] ->
  assoc field inst = Some value ->
  output_value (S (S fuel)) inst
    (Workflow name base_dir
       (Workflow input_wf_name data_dir
          (Leaf "infosrc" (IdentityInterface ["session_id"; "subject_id"])
                [("session_id", sessions); ("subject_id", Some subj_ids)] :: inner)
          inner_connections :: other)
       connections)
    input_wf_name ("infosrc." +:+ field)
  = Some value.
Proof.
  intros Hname Hfield Hvalue.
  change (output_value (S (S fuel))) with
    (fun inst wf node port => output_value (S (S fuel)) inst wf node port).
  cbn beta. cbn [output_value].
  rewrite get_node_plain by exact Hname. cbn [List.find node_name].
  rewrite bool_decide_eq_true_2 by reflexivity.
  assert (Hsplit : py_split "."%char (Some 1) ("infosrc." +:+ field) = ["infosrc"; field]).
  { apply split_once_pair. split; reflexivity. }
  rewrite Hsplit.
  apply output_of_infosrc; assumption.
Qed.

(** The container in an instance that has a subject and a session. *)
Lemma container_of_instance work_dir data_dir output_dir file_names sessions subject_ids
      input_wf_name wf_name main_wf inst subject session fuel :
  in_out_workflow work_dir data_dir output_dir file_names (Some sessions)
                  subject_ids input_wf_name wf_name = inr main_wf ->
  assoc "subject_id" inst = Some subject ->
  assoc "session_id" inst = Some session ->
  (3 <= fuel)%nat ->
  input_value fuel inst main_wf "datasink" "container"
  = Some (joined_path subject session).
Proof.
  intros Hwf Hsubject Hsession Hfuel.
  apply in_out_workflow_with_sessions in Hwf
    as (Hname & Hjoin & Hsink & subj_ids & files & sink & ->).
  destruct fuel as [|[|[|fuel]]]; try lia.
  unfold input_value at 1. unfold edge_into.
  cbn [connections_of List.find dst dst_port]. decide_names.
  rewrite output_value_step, get_node_plain by reflexivity.
  cbn [List.find node_name]. decide_names.
  unfold input_value, edge_into.
  cbn [connections_of List.find dst dst_port]. decide_names.
  rewrite (output_of_input_wf fuel inst _ _ _ _ _ _ _ _ _ _ "subject_id" subject Hname)
    by (assumption || set_solver).
  rewrite (output_of_input_wf fuel inst _ _ _ _ _ _ _ _ _ _ "session_id" session Hname)
    by (assumption || set_solver).
  reflexivity.
Qed.

(** The instances of a main workflow built with sessions: one for each
    session and each subject. *)
Lemma expand_axes_pairs f g (vs ws : list string) (inst : Instance) :
  inst ∈ expand_axes [(f, vs); (g, ws)]
  <-> exists v w, v ∈ vs /\ w ∈ ws /\ inst = [(f, v); (g, w)].
Proof.
  cbn [expand_axes]. rewrite list_elem_of_In, in_flat_map. split.
  - intros (v & Hv & Hinst). apply in_map_iff in Hinst as (rest & <- & Hrest).
    apply in_flat_map in Hrest as (w & Hw & Hrest).
    destruct Hrest as [<-|[]].
    exists v, w. rewrite !list_elem_of_In. auto.
  - intros (v & w & Hv & Hw & ->). exists v. split; [apply list_elem_of_In, Hv|].
    apply in_map. apply in_flat_map. exists w.
    split; [apply list_elem_of_In, Hw|left; reflexivity].
Qed.

Lemma instances_with_sessions work_dir data_dir output_dir file_names sessions subject_ids
      input_wf_name wf_name main_wf :
  in_out_workflow work_dir data_dir output_dir file_names (Some sessions)
                  subject_ids input_wf_name wf_name = inr main_wf ->
  exists subj_ids,
    expand main_wf
    = inr (expand_axes [("session_id", sessions); ("subject_id", subj_ids)]).
Proof.
  intros Hwf.
  apply in_out_workflow_with_sessions in Hwf
    as (_ & _ & _ & subj_ids & files & sink & ->).
  exists subj_ids. reflexivity.
Qed.

(** C7.  In a main workflow built with sessions, every instance has a
    subject and a session, and the [container] input of the datasink
    receives in it the subject joined with the session as a path, the
    subject first.  Two instances that differ are stored under two
    different containers when their subjects hold no [/], as the names of
    directories do.  Built without sessions, the workflow has the
    [container] input fed by the subject of the input workflow, with no
    join in between. *)
Theorem datasink_container_by_subject_then_session :
  (forall work_dir data_dir output_dir file_names sessions subject_ids input_wf_name
          wf_name main_wf,
      in_out_workflow work_dir data_dir output_dir file_names (Some sessions)
                      subject_ids input_wf_name wf_name = inr main_wf ->
      exists instances,
        expand main_wf = inr instances
        /\ (forall inst,
               inst ∈ instances ->
               exists subject session,
                 assoc "subject_id" inst = Some subject
                 /\ assoc "session_id" inst = Some session
                 /\ session ∈ sessions
                 /\ forall fuel,
                      (3 <= fuel)%nat ->
                      input_value fuel inst main_wf "datasink" "container"
                      = Some (subject +:+ "/" +:+ session))
        /\ (forall inst inst' subject subject' fuel,
               inst ∈ instances -> inst' ∈ instances ->
               assoc "subject_id" inst = Some subject ->
               assoc "subject_id" inst' = Some subject' ->
               has_char "/"%char subject = false ->
               has_char "/"%char subject' = false ->
               inst <> inst' ->
               (3 <= fuel)%nat ->
               input_value fuel inst main_wf "datasink" "container"
               <> input_value fuel inst' main_wf "datasink" "container"))
  /\ (forall work_dir data_dir output_dir file_names subject_ids input_wf_name
             wf_name main_wf,
         in_out_workflow work_dir data_dir output_dir file_names None
                         subject_ids input_wf_name wf_name = inr main_wf ->
         edge_into main_wf "datasink" "container"
         = Some (mkConnection input_wf_name "infosrc.subject_id" None
                              "datasink" "container")).
Proof.
  split.
  - intros work_dir data_dir output_dir file_names sessions subject_ids input_wf_name
           wf_name main_wf Hwf.
    destruct (instances_with_sessions _ _ _ _ _ _ _ _ _ Hwf) as [subj_ids Hexpand].
    eexists. split; [exact Hexpand|]. split.
    + intros inst Hinst.
      apply expand_axes_pairs in Hinst as (session & subject & Hsession & _ & ->).
      exists subject, session. split; [reflexivity|]. split; [reflexivity|].
      split; [exact Hsession|]. intros fuel Hfuel.
      apply (container_of_instance _ _ _ _ _ _ _ _ _ _ _ _ _ Hwf); [reflexivity..|exact Hfuel].
    + intros inst inst' subject subject' fuel Hinst Hinst' Hsubject Hsubject' Hplain Hplain'
             Hdiffer Hfuel.
      apply expand_axes_pairs in Hinst as (session & u & _ & _ & ->).
      apply expand_axes_pairs in Hinst' as (session' & u' & _ & _ & ->).
      injection Hsubject as ->. injection Hsubject' as ->.
      rewrite (container_of_instance _ _ _ _ _ _ _ _ _ _ subject session _ Hwf)
        by (reflexivity || exact Hfuel).
      rewrite (container_of_instance _ _ _ _ _ _ _ _ _ _ subject' session' _ Hwf)
        by (reflexivity || exact Hfuel).
      intros [= Hsame]. apply Hdiffer.
      destruct (joined_path_inj _ _ _ _ Hplain Hplain' Hsame) as [-> ->]. reflexivity.
  - intros work_dir data_dir output_dir file_names subject_ids input_wf_name
           wf_name main_wf Hwf.
    apply in_out_workflow_without_sessions in Hwf
      as (_ & _ & subj_ids & files & sink & ->).
    unfold edge_into. cbn [connections_of List.find dst dst_port]. decide_names.
    reflexivity.
Qed.

End Container.

Lemma datasink_container_by_subject_then_session_witness :
  (exists instances,
      expand (workflow_of sample_main_wf) = inr instances
      /\ (forall inst,
             inst ∈ instances ->
             exists subject session,
               assoc "subject_id" inst = Some subject
               /\ assoc "session_id" inst = Some session
               /\ session ∈ ["s0"]
               /\ forall fuel,
                    (3 <= fuel)%nat ->
                    input_value fuel inst (workflow_of sample_main_wf) "datasink" "container"
                    = Some (subject +:+ "/" +:+ session))
      /\ (forall inst inst' subject subject' fuel,
             inst ∈ instances -> inst' ∈ instances ->
             assoc "subject_id" inst = Some subject ->
             assoc "subject_id" inst' = Some subject' ->
             has_char "/"%char subject = false ->
             has_char "/"%char subject' = false ->
             inst <> inst' ->
             (3 <= fuel)%nat ->
             input_value fuel inst (workflow_of sample_main_wf) "datasink" "container"
             <> input_value fuel inst' (workflow_of sample_main_wf) "datasink" "container"))
  /\ edge_into (workflow_of (@in_out_workflow sample_engine sample_helpers "/work" "/data"
                               "/out" ["diff.nii.gz"] None (Some ["S1"; "S2"])
                               "input_files" "main_workflow"))
               "datasink" "container"
     = Some (mkConnection "input_files" "infosrc.subject_id" None "datasink" "container").
Proof.
  split.
  - apply (proj1 (@datasink_container_by_subject_then_session sample_engine sample_helpers)
             "/work" "/data" "/out" ["anat_hc.nii.gz"; "diff.nii.gz"] ["s0"]
             (Some ["S1"; "S2"]) "input_files" "main_workflow").
    vm_compute. reflexivity.
  - apply (proj2 (@datasink_container_by_subject_then_session sample_engine sample_helpers)
             "/work" "/data" "/out" ["diff.nii.gz"] (Some ["S1"; "S2"])
             "input_files" "main_workflow").
    vm_compute. reflexivity.
Defined.

(** Two instances whose identifiers hold a [/] can share their container:
    the subject [a/b] in the session [c] and the subject [a] in the session
    [b/c] are both stored under [a/b/c].  And a main workflow built without
    sessions has no instance to store: its session axis has no list of
    values to go through. *)
Lemma instances_can_share_a_container :
  (exists main_wf instances,
      @in_out_workflow sample_engine sample_helpers "/work" "/data" "/out" ["diff.nii.gz"]
                       (Some ["c"; "b/c"]) (Some ["a/b"; "a"]) "input_files" "main_workflow"
      = inr main_wf
      /\ expand main_wf = inr instances
      /\ [("session_id", "c"); ("subject_id", "a/b")] ∈ instances
      /\ [("session_id", "b/c"); ("subject_id", "a")] ∈ instances
      /\ input_value 3 [("session_id", "c"); ("subject_id", "a/b")] main_wf
                     "datasink" "container" = Some "a/b/c"
      /\ input_value 3 [("session_id", "b/c"); ("subject_id", "a")] main_wf
                     "datasink" "container" = Some "a/b/c")
  /\ exists main_wf,
       @in_out_workflow sample_engine sample_helpers "/work" "/data" "/out" ["diff.nii.gz"]
                        None (Some ["S1"; "S2"]) "input_files" "main_workflow"
       = inr main_wf
       /\ expand main_wf = inl (TypeError "'NoneType' object is not iterable").
Proof.
  split.
  - eexists _, _. split; [vm_compute; reflexivity|].
    split; [vm_compute; reflexivity|].
    split; [apply list_elem_of_here|].
    split; [do 3 apply list_elem_of_further; apply list_elem_of_here|].
    split; vm_compute; reflexivity.
  - eexists. split; vm_compute; reflexivity.
Qed.

(** ** Attaching the diffusion workflow *)

(** Settles a decidable statement about literals by evaluation. *)
Ltac by_evaluation :=
  match goal with
  | |- ?P => apply (bool_decide_unpack P); vm_compute; exact I
  end.




(** A [connect] that succeeds adds to the workflow and takes nothing away. *)
Lemma connect_result wf wirings wf' :
  connect wf wirings = inr wf' ->
  exists name base_dir nodes connections,
    wf = Workflow name base_dir nodes connections
    /\ wf' = Workflow name base_dir
               (with_end_points (app nodes (new_nodes wf wirings)) wirings)
               (app connections (flat_map edges_of wirings)).
Proof.
  unfold connect. destruct wf as [|name base_dir nodes connections]; [discriminate|].
  destruct (wired_to_itself _ _); [discriminate|].
  destruct (check_nodes _ _ _ _) as [e|[]]; [discriminate|]. cbn [rbind].
  destruct (check_inputs _ _) as [e|[]]; [discriminate|]. cbn [rbind].
  intros [= <-]. eexists _, _, _, _. split; reflexivity.
Qed.

Lemma add_node_keeps nodes n m :
  existsb (fun x => same_node x m) nodes = true ->
  existsb (fun x => same_node x m) (add_node nodes n) = true.
Proof.
  intros Hheld. unfold add_node.
  destruct (existsb (fun x => same_node x n) nodes); [exact Hheld|].
  rewrite existsb_app, Hheld. reflexivity.
Qed.

Lemma add_node_holds nodes n :
  existsb (fun x => same_node x n) (add_node nodes n) = true.
Proof.
  unfold add_node. destruct (existsb _ nodes) eqn:Hheld; [exact Hheld|].
  rewrite existsb_app. cbn [existsb]. rewrite same_node_refl. apply orb_true_r.
Qed.

Lemma with_end_points_keeps wirings : forall nodes m,
  existsb (fun x => same_node x m) nodes = true ->
  existsb (fun x => same_node x m) (with_end_points nodes wirings) = true.
Proof.
  induction wirings as [|w rest IH]; intros nodes m Hheld; [exact Hheld|].
  apply IH. apply add_node_keeps, add_node_keeps, Hheld.
Qed.

(** Both ends of a wiring are nodes of the graph once it is made. *)
Lemma with_end_points_holds wirings : forall nodes w,
  In w wirings ->
  existsb (fun x => same_node x (fst (fst w))) (with_end_points nodes wirings) = true
  /\ existsb (fun x => same_node x (snd (fst w))) (with_end_points nodes wirings) = true.
Proof.
  induction wirings as [|w0 rest IH]; intros nodes w Hw; [contradiction|].
  destruct Hw as [->|Hw]; [|apply IH, Hw].
  change (with_end_points nodes (w :: rest))
    with (with_end_points (add_node (add_node nodes (fst (fst w))) (snd (fst w))) rest).
  split; apply with_end_points_keeps.
  - apply add_node_keeps, add_node_holds.
  - apply add_node_holds.
Qed.

Lemma has_node_top name base_dir nodes connections n :
  existsb (fun x => same_node x n) nodes = true ->
  has_node (Workflow name base_dir nodes connections) n = true.
Proof.
  cbn [has_node]. induction nodes as [|x rest IH]; [discriminate|].
  cbn [existsb]. intros Hheld. apply orb_true_iff in Hheld as [Hx|Hrest].
  - rewrite Hx. reflexivity.
  - rewrite (IH Hrest). apply orb_true_r.
Qed.


Section Diffusion.
Context `{Engine}.

(** What [fsl_dti_preprocessing] does. *)
Lemma fsl_dti_preprocessing_run wf_name :
  fsl_dti_preprocessing wf_name
  = if valid_name wf_name then
      inr (Workflow wf_name None
             [Leaf "write_acqp"
                   (Function ["in_file"] ["out_acqp"; "out_index"]
                             "write_acquisition_parameters") [];
              Leaf "eddy" (Tool "Eddy" []) [];
              Leaf "extract_b0" (Tool "ExtractROI" [("t_min", "0"); ("t_size", "1")]) [];
              Leaf "gunzip_b0" (Tool "Gunzip" []) [];
              Leaf "coreg_b0" (spm_coregister "mi") [];
              Leaf "brain_sel" (Tool "Select" [("index", "[0, 1, 2]")]) [];
              Leaf "brain_split" (Tool "Split" [("splits", "[1, 2]"); ("squeeze", "True")]) [];
              Leaf "brain_merge"
                   (Tool "MultiImageMaths" [("op_string", "-add '%s' -add '%s' -abs -bin");
                                            ("out_file", "brain_mask.nii.gz")]) [];
              Leaf "dtifit" (Tool "DTIFit" [("save_tensor", "True")]) []]
             [mkConnection "write_acqp" "out_acqp" None "eddy" "in_acqp";
              mkConnection "write_acqp" "out_index" None "eddy" "in_index";
              mkConnection "extract_b0" "roi_file" None "gunzip_b0" "in_file";
              mkConnection "gunzip_b0" "out_file" None "coreg_b0" "target";
              mkConnection "brain_sel" "out" (Some "flatten_list") "coreg_b0" "apply_to_files";
              mkConnection "coreg_b0" "coregistered_files" None "brain_split" "inlist";
              mkConnection "brain_split" "out1" None "brain_merge" "in_file";
              mkConnection "brain_split" "out2" None "brain_merge" "operand_files";
              mkConnection "brain_merge" "out_file" None "eddy" "in_mask";
              mkConnection "eddy" "out_corrected" None "dtifit" "dwi";
              mkConnection "brain_merge" "out_file" None "dtifit" "mask"])
    else inl (invalid_name wf_name).
Proof.
  unfold fsl_dti_preprocessing, pe_Workflow.
  destruct (valid_name wf_name); [|reflexivity].
  cbn [rbind]. vm_compute. reflexivity.
Qed.


End Diffusion.

Section Attach.
Context `{Engine} `{Helpers}.


End Attach.



(** * Further properties *)

(** ** write_acquisition_parameters: outcomes *)

Lemma split_pieces_trailing sep text :
  split_pieces sep None (text +:+ String sep "")
  = (fst (split_pieces sep None text), app (snd (split_pieces sep None text)) [""]).
Proof.
  induction text as [|c r IH].
  - change ("" +:+ String sep "") with (String sep ""). cbn [split_pieces].
    rewrite Ascii.eqb_refl. reflexivity.
  - change (String c r +:+ String sep "") with (String c (r +:+ String sep "")).
    cbn [split_pieces can_split after_split]. rewrite !andb_true_r, IH.
    destruct (Ascii.eqb c sep); reflexivity.
Qed.

(** The last piece of a text that ends with the separator is empty. *)
Lemma py_split_trailing sep text :
  py_split sep None (text +:+ String sep "") = app (py_split sep None text) [""].
Proof. unfold py_split. rewrite split_pieces_trailing. reflexivity. Qed.

Section Outcomes.
Context `{PyRuntime}.

Lemma phase_encoding_axis_accepts d pe :
  phase_encoding_axis d = inr pe ->
  d !! "phaseDir" = Some "+" \/ d !! "phaseDir" = Some "-".
Proof.
  unfold phase_encoding_axis.
  destruct (decide (d !! "phaseDir" = Some "+")); [auto|].
  destruct (decide (d !! "phaseDir" = Some "-")); [auto|discriminate].
Qed.

Lemma total_readout_time_accepts d trt :
  total_readout_time d = inr trt ->
  exists v dwell, d !! "dwell" = Some v /\ py_float v = Some dwell.
Proof.
  unfold total_readout_time, py_getitem, float_of_str.
  destruct (d !! "dwell") as [v|] eqn:Hdwell; [|discriminate]. cbn [rbind].
  destruct (py_float v) as [dwell|] eqn:Hfloat; [|discriminate].
  intros _. eauto.
Qed.

(** X1.  The function returns only for an image that loads, whose
    annotation holds an [=] in every segment, with a [phaseDir] that is
    ["+"] or ["-"] and a [dwell] whose value [float] reads. *)
Theorem success_needs_valid_metadata in_file fs fs' paths :
  write_acquisition_parameters in_file fs = (fs', inr paths) ->
  exists image d v dwell,
    nibabel_load in_file = inr image
    /\ Forall (fun seg => has_char "="%char seg = true)
              (py_split ";"%char None (descrip image))
    /\ parse_descrip (descrip image) = inr d
    /\ (d !! "phaseDir" = Some "+" \/ d !! "phaseDir" = Some "-")
    /\ d !! "dwell" = Some v
    /\ py_float v = Some dwell.
Proof.
  intros Hrun.
  destruct (nibabel_load in_file) as [e|image] eqn:Hload.
  { unfold write_acquisition_parameters, io_bind, io_lift in Hrun.
    rewrite Hload in Hrun. discriminate. }
  rewrite (write_acquisition_parameters_run _ _ _ Hload) in Hrun.
  destruct (parse_descrip (descrip image)) as [e|d] eqn:Hparse; [discriminate|].
  destruct (phase_encoding_axis d) as [e|pe] eqn:Hpe; [discriminate|].
  destruct (total_readout_time d) as [e|trt] eqn:Htrt; [discriminate|].
  apply phase_encoding_axis_accepts in Hpe as Hdir.
  apply total_readout_time_accepts in Htrt as (v & dwell & Hdwell & Hfloat).
  exists image, d, v, dwell. repeat split; try assumption.
  apply Forall_forall. intros seg Hin.
  destruct (has_char "="%char seg) eqn:Hseg; [reflexivity|].
  exfalso. unfold parse_descrip, py_dict in Hparse.
  destruct (dict_update_short (map (py_split "="%char (Some 1))
                                   (py_split ";"%char None (descrip image))) 0 ∅)
    as [msg Hbad]; [|congruence].
  apply Exists_exists. exists (py_split "="%char (Some 1) seg). split.
  - apply list_elem_of_fmap_2, Hin.
  - rewrite split_once_length, Hseg. discriminate.
Qed.

(** X2.  A run that succeeds returns the absolute paths of [diff.acqp] and
    [diff.index], leaves both files in place, and touches no other file. *)
Theorem success_writes_two_files_only in_file fs fs' paths :
  write_acquisition_parameters in_file fs = (fs', inr paths) ->
  paths = (abspath "diff.acqp", abspath "diff.index")
  /\ is_Some (fs' !! "diff.acqp") /\ is_Some (fs' !! "diff.index")
  /\ forall name, name <> "diff.acqp" -> name <> "diff.index" ->
                  fs' !! name = fs !! name.
Proof.
  destruct (nibabel_load in_file) as [e|image] eqn:Hload.
  { unfold write_acquisition_parameters, io_bind, io_lift. rewrite Hload. discriminate. }
  rewrite (write_acquisition_parameters_run _ _ _ Hload).
  destruct (parse_descrip (descrip image)) as [e|d]; [discriminate|].
  destruct (phase_encoding_axis d) as [e|pe]; [discriminate|].
  destruct (total_readout_time d) as [e|trt]; [discriminate|].
  intros [= <- <-]. split; [reflexivity|]. split.
  { rewrite lookup_insert_ne by discriminate. rewrite lookup_insert_eq. eauto. }
  split.
  { unfold index_file. rewrite lookup_insert_eq. eauto. }
  intros name Hacqp Hindex.
  unfold index_file, acqp_file. rewrite !lookup_insert_ne by congruence. reflexivity.
Qed.

(** X3.  The two files are overwritten, not appended to: a second run on
    the same image leaves the files of the first run as they are and returns
    the same paths. *)
Theorem second_run_changes_nothing in_file fs fs' paths :
  write_acquisition_parameters in_file fs = (fs', inr paths) ->
  write_acquisition_parameters in_file fs' = (fs', inr paths).
Proof.
  destruct (nibabel_load in_file) as [e|image] eqn:Hload.
  { unfold write_acquisition_parameters, io_bind, io_lift. rewrite Hload. discriminate. }
  rewrite !(write_acquisition_parameters_run _ _ _ Hload).
  destruct (parse_descrip (descrip image)) as [e|d]; [discriminate|].
  destruct (phase_encoding_axis d) as [e|pe]; [discriminate|].
  destruct (total_readout_time d) as [e|trt]; [discriminate|].
  intros [= <- <-]. f_equal.
  apply map_eq. intros name. unfold index_file, acqp_file.
  destruct (decide (name = "diff.index")) as [->|Hindex];
    [|destruct (decide (name = "diff.acqp")) as [->|Hacqp]];
    repeat first [rewrite lookup_insert_eq
                 |rewrite lookup_insert_ne by (congruence || discriminate)];
    reflexivity.
Qed.

(** X6.  An annotation that is empty or ends with a semicolon has an empty
    last segment, so the function raises [ValueError] and writes nothing,
    whatever the other segments say. *)
Theorem trailing_semicolon_raises in_file image fs :
  nibabel_load in_file = inr image ->
  descrip image = "" \/ (exists text, descrip image = text +:+ ";") ->
  exists msg, write_acquisition_parameters in_file fs = (fs, inl (ValueError msg)).
Proof.
  intros Hload Hend.
  rewrite (write_acquisition_parameters_run _ _ _ Hload).
  assert (Hbad : Exists (fun item => length item <> 2%nat)
                   (map (py_split "="%char (Some 1))
                        (py_split ";"%char None (descrip image)))).
  { destruct Hend as [-> | [text ->]].
    - left. discriminate.
    - rewrite py_split_trailing, map_app. apply Exists_app. right.
      left. discriminate. }
  destruct (dict_update_short _ 0 ∅ Hbad) as [msg Hparse].
  unfold parse_descrip, py_dict. rewrite Hparse. eauto.
Qed.

(** X4.  A [dwell] that is missing is reported after [phaseDir] has been
    checked: with no [dwell] key the function raises [KeyError] for [dwell]
    when [phaseDir] is ["+"] or ["-"], and the [ValueError] about [phaseDir]
    otherwise; in both cases nothing is written. *)
Theorem missing_dwell_reported_after_phase_dir in_file image d fs :
  nibabel_load in_file = inr image ->
  parse_descrip (descrip image) = inr d ->
  d !! "dwell" = None ->
  write_acquisition_parameters in_file fs =
    (fs, inl (if bool_decide (d !! "phaseDir" = Some "+" \/ d !! "phaseDir" = Some "-")
              then KeyError "dwell"
              else ValueError ("unexpected value for phaseDir: "
                               +:+ match d !! "phaseDir" with
                                   | Some value => value
                                   | None => "None"
                                   end))).
Proof.
  intros Hload Hparse Hdwell.
  rewrite (write_acquisition_parameters_run _ _ _ Hload), Hparse.
  unfold phase_encoding_axis, total_readout_time, py_getitem. rewrite Hdwell.
  destruct (decide (d !! "phaseDir" = Some "+")) as [Hp|Hp].
  { rewrite bool_decide_eq_true_2 by auto. reflexivity. }
  destruct (decide (d !! "phaseDir" = Some "-")) as [Hm|Hm].
  { rewrite bool_decide_eq_true_2 by auto. reflexivity. }
  rewrite bool_decide_eq_false_2 by tauto. reflexivity.
Qed.

End Outcomes.

Lemma success_needs_valid_metadata_witness :
  exists image d v dwell,
    @nibabel_load sample_runtime "dwi.nii.gz" = inr image
    /\ Forall (fun seg => has_char "="%char seg = true)
              (py_split ";"%char None (descrip image))
    /\ @parse_descrip (descrip image) = inr d
    /\ (d !! "phaseDir" = Some "+" \/ d !! "phaseDir" = Some "-")
    /\ d !! "dwell" = Some v
    /\ @py_float sample_runtime v = Some dwell.
Proof.
  apply (@success_needs_valid_metadata sample_runtime "dwi.nii.gz" ∅
           (fst (@write_acquisition_parameters sample_runtime "dwi.nii.gz" ∅))
           ("/work/diff.acqp", "/work/diff.index")).
  vm_compute. reflexivity.
Defined.

Lemma success_writes_two_files_only_witness :
  ("/work/diff.acqp", "/work/diff.index")
  = (@abspath sample_runtime "diff.acqp", @abspath sample_runtime "diff.index")
  /\ is_Some (fst (@write_acquisition_parameters sample_runtime "dwi.nii.gz"
                     (<["notes.txt" := "kept"]> ∅)) !! "diff.acqp")
  /\ is_Some (fst (@write_acquisition_parameters sample_runtime "dwi.nii.gz"
                     (<["notes.txt" := "kept"]> ∅)) !! "diff.index")
  /\ forall name, name <> "diff.acqp" -> name <> "diff.index" ->
       fst (@write_acquisition_parameters sample_runtime "dwi.nii.gz"
              (<["notes.txt" := "kept"]> ∅)) !! name
       = (<["notes.txt" := "kept"]> ∅ : Files) !! name.
Proof.
  apply (@success_writes_two_files_only sample_runtime "dwi.nii.gz"
           (<["notes.txt" := "kept"]> ∅) _ ("/work/diff.acqp", "/work/diff.index")).
  vm_compute. reflexivity.
Defined.

Lemma second_run_changes_nothing_witness :
  @write_acquisition_parameters sample_runtime "neg.nii.gz"
    (fst (@write_acquisition_parameters sample_runtime "neg.nii.gz" ∅))
  = (fst (@write_acquisition_parameters sample_runtime "neg.nii.gz" ∅),
     inr ("/work/diff.acqp", "/work/diff.index")).
Proof.
  apply (@second_run_changes_nothing sample_runtime "neg.nii.gz" ∅).
  vm_compute. reflexivity.
Defined.

Lemma missing_dwell_reported_after_phase_dir_witness :
  @write_acquisition_parameters sample_runtime "nodwell.nii.gz" ∅
  = (∅, inl (KeyError "dwell")).
Proof.
  etrans.
  - apply (@missing_dwell_reported_after_phase_dir sample_runtime "nodwell.nii.gz"
             (mkImage [96; 96; 60] 30 "phaseDir=+") (<["phaseDir" := "+"]> ∅) ∅).
    + reflexivity.
    + vm_compute. reflexivity.
    + reflexivity.
  - vm_compute. reflexivity.
Defined.

Lemma trailing_semicolon_raises_witness :
  exists msg,
    @write_acquisition_parameters sample_runtime "bare.nii.gz" ∅
    = (∅, inl (ValueError msg)).
Proof.
  apply (@trailing_semicolon_raises sample_runtime "bare.nii.gz"
           (mkImage [96; 96; 60] 30 "phaseDir=+;dwell=0.39;") ∅).
  - reflexivity.
  - right. exists "phaseDir=+;dwell=0.39". reflexivity.
Defined.

(** ** input_file_wf *)


Section InputFiles.
Context `{Engine}.

(** X7.  [input_file_wf] returns a workflow only for a name that the engine
    accepts, fields that are not empty and occur once each, and a data
    directory that exists.  Its checks come in this order: [ValueError] for
    the name, [ValueError] when there is no field, [TraitError] for the
    directory. *)
Theorem input_file_wf_checks work_dir data_dir field_iterables file_templates wf_name :
  (forall wf,
      input_file_wf work_dir data_dir field_iterables file_templates wf_name = inr wf ->
      valid_name wf_name = true /\ field_iterables <> [] /\ isdir data_dir = true
      /\ NoDup (map fst field_iterables))
  /\ (valid_name wf_name = false ->
      exists msg, input_file_wf work_dir data_dir field_iterables file_templates wf_name
                  = inl (ValueError msg))
  /\ (valid_name wf_name = true -> field_iterables = [] ->
      exists msg, input_file_wf work_dir data_dir field_iterables file_templates wf_name
                  = inl (ValueError msg))
  /\ (valid_name wf_name = true -> field_iterables <> [] -> isdir data_dir = false ->
      exists msg, input_file_wf work_dir data_dir field_iterables file_templates wf_name
                  = inl (LibraryError "TraitError" msg)).
Proof.
  rewrite input_file_wf_run.
  pose proof (check_inputs_fields (map fst field_iterables) []) as Hcheck.
  cbn [map] in Hcheck.
  split; [|split; [|split]].
  - intros wf. destruct (valid_name wf_name); [|discriminate].
    destruct field_iterables as [|axis axes]; [discriminate|].
    destruct (isdir data_dir); [|discriminate].
    destruct (check_inputs [] _) as [e|[]]; [discriminate|]. intros _.
    split; [reflexivity|]. split; [discriminate|]. split; [reflexivity|].
    apply Hcheck. reflexivity.
  - intros ->. unfold invalid_name. eauto.
  - intros -> ->. unfold no_fields. eauto.
  - intros -> Hfields ->. destruct field_iterables; [contradiction|].
    unfold no_directory. eauto.
Qed.

Lemma find_field_edge (fields : list string) (field : string) :
  List.find (fun c => bool_decide (dst c = "select") && bool_decide (dst_port c = field))
            (map (fun f => mkConnection "infosrc" f None "select" f) fields)
  = if bool_decide (field ∈ fields)
    then Some (mkConnection "infosrc" field None "select" field)
    else None.
Proof.
  induction fields as [|f rest IH]; [reflexivity|].
  cbn [map List.find dst dst_port].
  rewrite (bool_decide_eq_true_2 ("select" = "select")) by reflexivity. cbn [andb].
  destruct (decide (f = field)) as [->|Hne].
  - rewrite !bool_decide_eq_true_2 by (reflexivity || left). reflexivity.
  - rewrite (bool_decide_eq_false_2 (f = field)) by exact Hne. rewrite IH.
    destruct (decide (field ∈ rest)) as [Hin|Hout].
    + rewrite !bool_decide_eq_true_2 by (assumption || (right; assumption)). reflexivity.
    + rewrite !bool_decide_eq_false_2; [reflexivity| |exact Hout].
      intros Hin. apply elem_of_cons in Hin as [->|Hin]; [apply Hne; reflexivity|tauto].
Qed.

(** X8.  In the workflow [input_file_wf] gives back, [infosrc] carries the
    iterables as they were given, each of its fields feeds the input of the
    same name of [select], and [select] has no other input fed; no connection
    leads anywhere else. *)
Theorem input_file_wf_passes_fields work_dir data_dir field_iterables file_templates
        wf_name wf :
  input_file_wf work_dir data_dir field_iterables file_templates wf_name = inr wf ->
  get_node wf "infosrc"
  = Some (Leaf "infosrc" (IdentityInterface (map fst field_iterables)) field_iterables)
  /\ get_node wf "select" = Some (Leaf "select" (SelectFiles file_templates data_dir) [])
  /\ (forall field,
         edge_into wf "select" field
         = if bool_decide (field ∈ map fst field_iterables)
           then Some (mkConnection "infosrc" field None "select" field)
           else None)
  /\ (forall c, c ∈ connections_of wf ->
                src c = "infosrc" /\ dst c = "select" /\ src_port c = dst_port c
                /\ modifier c = None).
Proof.
  intros Hwf. apply input_file_wf_nodes in Hwf as [_ ->].
  split; [reflexivity|]. split; [reflexivity|]. split.
  - intros field. unfold edge_into. cbn [connections_of]. apply find_field_edge.
  - intros c Hc. cbn [connections_of] in Hc.
    apply list_elem_of_fmap in Hc as (f & -> & _). auto.
Qed.

End InputFiles.

Lemma input_file_wf_checks_witness :
  (@valid_name sample_engine "input_files" = true
   /\ [("session_id", Some ["s0"]); ("subject_id", Some ["S1"])] <> []
   /\ @isdir sample_engine "/data" = true
   /\ NoDup (map fst [("session_id", Some ["s0"]); ("subject_id", Some ["S1"])]))
  /\ (exists msg, @input_file_wf sample_engine "/work" "/data" [("subject_id", Some ["S1"])]
                                 ∅ "input files"
                  = inl (ValueError msg))
  /\ (exists msg, @input_file_wf sample_engine "/work" "/data" [] ∅ "input_files"
                  = inl (ValueError msg))
  /\ (exists msg, @input_file_wf sample_engine "/work" "/nowhere"
                                 [("subject_id", Some ["S1"])] ∅ "input_files"
                  = inl (LibraryError "TraitError" msg)).
Proof.
  split; [|split; [|split]].
  - apply (proj1 (@input_file_wf_checks sample_engine "/work" "/data"
                    [("session_id", Some ["s0"]); ("subject_id", Some ["S1"])] ∅
                    "input_files")
             (workflow_of (@input_file_wf sample_engine "/work" "/data"
                             [("session_id", Some ["s0"]); ("subject_id", Some ["S1"])] ∅
                             "input_files"))).
    vm_compute. reflexivity.
  - apply (proj1 (proj2 (@input_file_wf_checks sample_engine "/work" "/data"
                           [("subject_id", Some ["S1"])] ∅ "input files"))).
    reflexivity.
  - apply (proj1 (proj2 (proj2 (@input_file_wf_checks sample_engine "/work" "/data" [] ∅
                                  "input_files")))); reflexivity.
  - apply (proj2 (proj2 (proj2 (@input_file_wf_checks sample_engine "/work" "/nowhere"
                                  [("subject_id", Some ["S1"])] ∅ "input_files"))));
      [reflexivity|discriminate|reflexivity].
Defined.

Lemma input_file_wf_passes_fields_witness :
  exists wf,
    @input_file_wf sample_engine "/work" "/data"
      [("session_id", Some ["s0"]); ("subject_id", Some ["S1"])] ∅ "input_files" = inr wf
    /\ edge_into wf "select" "subject_id"
       = Some (mkConnection "infosrc" "subject_id" None "select" "subject_id")
    /\ edge_into wf "select" "anat" = None.
Proof.
  pose (wf := workflow_of (@input_file_wf sample_engine "/work" "/data"
                             [("session_id", Some ["s0"]); ("subject_id", Some ["S1"])] ∅
                             "input_files")).
  assert (Hwf : @input_file_wf sample_engine "/work" "/data"
                  [("session_id", Some ["s0"]); ("subject_id", Some ["S1"])] ∅
                  "input_files" = inr wf) by (vm_compute; reflexivity).
  exists wf. split; [exact Hwf|].
  destruct (@input_file_wf_passes_fields sample_engine "/work" "/data"
              [("session_id", Some ["s0"]); ("subject_id", Some ["S1"])] ∅
              "input_files" wf Hwf) as (_ & _ & Hedges & _).
  split; rewrite Hedges; reflexivity.
Defined.

(** ** subject_session_input *)

Lemma basename_has_no_slash path : has_char "/"%char (basename path) = false.
Proof.
  unfold basename.
  destruct (py_split_segments "/"%char path) as [Hfree _].
  induction Hfree as [|piece rest Hpiece _ IH]; [reflexivity|].
  destruct rest; [exact Hpiece|exact IH].
Qed.

Lemma basename_of_name name : has_char "/"%char name = false -> basename name = name.
Proof.
  intros Hname. unfold basename, py_split.
  rewrite (split_pieces_absent _ _ _ Hname). reflexivity.
Qed.

Lemma templates_of_file_names `{Helpers} (file_names : list string) :
  forall files : gmap string string,
    let made := foldl (fun d f => <[remove_ext (basename f)
                                    := "{subject_id}/{session_id}/" +:+ f]> d)
                      files file_names in
    (forall key template,
        made !! key = Some template ->
        files !! key = Some template
        \/ exists f, f ∈ file_names /\ key = remove_ext (basename f)
                     /\ template = "{subject_id}/{session_id}/" +:+ f)
    /\ (forall f, f ∈ file_names -> is_Some (made !! remove_ext (basename f)))
    /\ (forall key, is_Some (files !! key) -> is_Some (made !! key)).
Proof.
  induction file_names as [|f rest IH]; intros files; cbn [foldl].
  - split; [auto|]. split; [|auto]. intros f Hf. inversion Hf.
  - destruct (IH (<[remove_ext (basename f) := "{subject_id}/{session_id}/" +:+ f]> files))
      as (Hfrom & Hall & Hkeep).
    split; [|split].
    + intros key template Hmade. destruct (Hfrom key template Hmade) as [Hold|Hnew].
      * destruct (decide (remove_ext (basename f) = key)) as [<-|Hne].
        -- rewrite lookup_insert_eq in Hold. injection Hold as <-.
           right. exists f. split; [left|auto].
        -- rewrite lookup_insert_ne in Hold by exact Hne. auto.
      * destruct Hnew as (g & Hg & -> & ->). right. exists g. split; [right; exact Hg|auto].
    + intros g Hg. apply elem_of_cons in Hg as [->|Hg]; [|apply Hall, Hg].
      apply Hkeep. rewrite lookup_insert_eq. eauto.
    + intros key Hkey. apply Hkeep.
      destruct (decide (remove_ext (basename f) = key)) as [<-|Hne].
      * rewrite lookup_insert_eq. eauto.
      * rewrite lookup_insert_ne by exact Hne. exact Hkey.
Qed.

Section InputWorkflow.
Context `{Engine} `{Helpers}.

(** X9.  When [_check_list] gives no subject, the subjects are the base
    names of the entries of [base_dir], none of which holds a [/]; when the
    directory cannot be listed, its exception is the one raised; when it
    gives subjects, these are the subject axis as they are.  The session
    axis comes first, the subject axis second. *)
Theorem subjects_of_the_input_workflow base_dir session_names file_names subject_ids
        wf_name :
  (forall e, check_list subject_ids = None -> os_listdir base_dir = inl e ->
             subject_session_input base_dir session_names file_names subject_ids wf_name
             = inl e)
  /\ (forall paths wf,
         check_list subject_ids = None -> os_listdir base_dir = inr paths ->
         subject_session_input base_dir session_names file_names subject_ids wf_name
         = inr wf ->
         get_node wf "infosrc"
         = Some (Leaf "infosrc" (IdentityInterface ["session_id"; "subject_id"])
                      [("session_id", session_names);
                       ("subject_id", Some (map basename paths))])
         /\ Forall (fun id => has_char "/"%char id = false) (map basename paths))
  /\ (forall ids wf,
         check_list subject_ids = Some ids ->
         subject_session_input base_dir session_names file_names subject_ids wf_name
         = inr wf ->
         get_node wf "infosrc"
         = Some (Leaf "infosrc" (IdentityInterface ["session_id"; "subject_id"])
                      [("session_id", session_names); ("subject_id", Some ids)])).
Proof.
  unfold subject_session_input. split; [|split].
  - intros e -> ->. reflexivity.
  - intros paths wf -> ->. cbn [rbind]. intros Hwf.
    apply input_file_wf_nodes in Hwf as [_ ->]. split; [reflexivity|].
    apply Forall_fmap, Forall_forall. intros path _. apply basename_has_no_slash.
  - intros ids wf ->. cbn [rbind]. intros Hwf.
    apply input_file_wf_nodes in Hwf as [_ ->]. reflexivity.
Qed.

(** X10.  The templates of [select] are made of the file names: each
    template is [{subject_id}/{session_id}/] followed by a file name, under
    the key that [remove_ext] makes of the base name of that file, and every
    file name has its key among the templates.  The files are looked for in
    [base_dir]. *)
Theorem templates_of_the_input_workflow base_dir session_names file_names subject_ids
        wf_name wf :
  subject_session_input base_dir session_names file_names subject_ids wf_name = inr wf ->
  exists files,
    get_node wf "select" = Some (Leaf "select" (SelectFiles files base_dir) [])
    /\ (forall key template,
           files !! key = Some template ->
           exists f, f ∈ file_names /\ key = remove_ext (basename f)
                     /\ template = "{subject_id}/{session_id}/" +:+ f)
    /\ (forall f, f ∈ file_names -> is_Some (files !! remove_ext (basename f))).
Proof.
  unfold subject_session_input.
  destruct (check_list subject_ids) as [ids|]; cbn [rbind];
    [|destruct (os_listdir base_dir) as [e|paths]; cbn [rbind]; [discriminate|]];
    intros Hwf; apply input_file_wf_nodes in Hwf as [_ ->];
    (eexists; split; [reflexivity|]);
    (destruct (templates_of_file_names file_names ∅) as (Hfrom & Hall & _));
    (split; [|exact Hall]);
    intros key template Hmade; (destruct (Hfrom key template Hmade) as [Hold|Hnew]);
    [rewrite lookup_empty in Hold; discriminate|exact Hnew
    |rewrite lookup_empty in Hold; discriminate|exact Hnew].
Qed.

End InputWorkflow.

Lemma subjects_of_the_input_workflow_witness :
  @subject_session_input sample_engine unreadable_helpers "/data" (Some ["s0"]) [] None "input_files"
  = inl (LibraryError "FileNotFoundError" "/data")
  /\ (get_node (workflow_of (@subject_session_input sample_engine listing_helpers "/data" (Some ["s0"])
                               [] None "input_files"))
               "infosrc"
      = Some (Leaf "infosrc" (IdentityInterface ["session_id"; "subject_id"])
                   [("session_id", Some ["s0"]);
                    ("subject_id", Some (map basename ["S1"; "S2"]))])
      /\ Forall (fun id => has_char "/"%char id = false) (map basename ["S1"; "S2"]))
  /\ get_node (workflow_of (@subject_session_input sample_engine sample_helpers "/data" (Some ["s0"])
                              [] (Some ["S3"]) "input_files"))
              "infosrc"
     = Some (Leaf "infosrc" (IdentityInterface ["session_id"; "subject_id"])
                  [("session_id", Some ["s0"]); ("subject_id", Some ["S3"])]).
Proof.
  split; [|split].
  - apply (proj1 (@subjects_of_the_input_workflow sample_engine unreadable_helpers "/data" (Some ["s0"])
                    [] None "input_files")); reflexivity.
  - apply (proj1 (proj2 (@subjects_of_the_input_workflow sample_engine listing_helpers "/data"
                           (Some ["s0"]) [] None "input_files"))).
    + reflexivity.
    + reflexivity.
    + vm_compute. reflexivity.
  - apply (proj2 (proj2 (@subjects_of_the_input_workflow sample_engine sample_helpers "/data"
                           (Some ["s0"]) [] (Some ["S3"]) "input_files"))).
    + reflexivity.
    + vm_compute. reflexivity.
Defined.

Lemma templates_of_the_input_workflow_witness :
  exists files,
    get_node (workflow_of (@subject_session_input sample_engine sample_helpers "/data" (Some ["s0"])
                             ["anat_1/mprage.nii.gz"; "rest.nii.gz"] (Some ["S1"])
                             "input_files"))
             "select"
    = Some (Leaf "select" (SelectFiles files "/data") [])
    /\ (forall key template,
           files !! key = Some template ->
           exists f, f ∈ ["anat_1/mprage.nii.gz"; "rest.nii.gz"]
                     /\ key = @remove_ext sample_helpers (basename f)
                     /\ template = "{subject_id}/{session_id}/" +:+ f)
    /\ (forall f, f ∈ ["anat_1/mprage.nii.gz"; "rest.nii.gz"] ->
                  is_Some (files !! @remove_ext sample_helpers (basename f))).
Proof.
  apply (@templates_of_the_input_workflow sample_engine sample_helpers "/data" (Some ["s0"])
           ["anat_1/mprage.nii.gz"; "rest.nii.gz"] (Some ["S1"]) "input_files").
  vm_compute. reflexivity.
Defined.

(** ** in_out_workflow *)

Section MainWorkflow.
Context `{Engine} `{Helpers}.

(** X11.  [in_out_workflow] returns a main workflow only for a name that
    the engine accepts and an input workflow that can be built and is named
    neither [datasink] nor, with sessions, [joinpath].  The engine's
    [ValueError] for the name comes first, then the exception of the input
    workflow, then [IOError] for a name that two nodes would bear. *)
Theorem in_out_workflow_checks work_dir data_dir output_dir file_names
        session_names subject_ids input_wf_name wf_name :
  (forall main_wf,
      in_out_workflow work_dir data_dir output_dir file_names session_names subject_ids
                      input_wf_name wf_name = inr main_wf ->
      valid_name wf_name = true
      /\ (exists input_wf,
             subject_session_input data_dir session_names file_names subject_ids
                                   input_wf_name = inr input_wf)
      /\ input_wf_name <> "datasink"
      /\ (is_Some session_names -> input_wf_name <> "joinpath"))
  /\ (valid_name wf_name = false ->
      exists msg,
        in_out_workflow work_dir data_dir output_dir file_names session_names subject_ids
                        input_wf_name wf_name = inl (ValueError msg))
  /\ (forall e,
         valid_name wf_name = true ->
         subject_session_input data_dir session_names file_names subject_ids input_wf_name
         = inl e ->
         in_out_workflow work_dir data_dir output_dir file_names session_names subject_ids
                         input_wf_name wf_name = inl e)
  /\ (valid_name wf_name = true ->
      (exists input_wf,
          subject_session_input data_dir session_names file_names subject_ids
                                input_wf_name = inr input_wf) ->
      input_wf_name = "datasink" \/ (is_Some session_names /\ input_wf_name = "joinpath") ->
      exists msg,
        in_out_workflow work_dir data_dir output_dir file_names session_names subject_ids
                        input_wf_name wf_name = inl (IOError msg)).
Proof.
  split; [|split; [|split]].
  - intros main_wf Hrun.
    destruct (in_out_workflow_inputs _ _ _ _ _ _ _ _ _ Hrun) as (Hname & input_wf & Hin).
    split; [exact Hname|]. split; [eauto|].
    destruct session_names as [sessions|].
    + apply in_out_workflow_with_sessions in Hrun as (_ & Hjoin & Hsink & _).
      split; [exact Hsink|]. intros _. exact Hjoin.
    + apply in_out_workflow_without_sessions in Hrun as (_ & Hsink & _).
      split; [exact Hsink|]. intros [? Hsome]. discriminate.
  - intros Hname. unfold in_out_workflow, pe_Workflow. rewrite Hname.
    unfold invalid_name. eauto.
  - intros e Hname Hin. unfold in_out_workflow, pe_Workflow. rewrite Hname.
    cbn [rbind]. rewrite Hin. reflexivity.
  - intros Hname [input_wf Hin] Htaken. unfold duplicate_node.
    destruct session_names as [sessions|].
    + rewrite (in_out_workflow_run_with_sessions _ _ _ _ _ _ _ _ _ Hname Hin).
      unfold duplicate_node.
      destruct (decide (input_wf_name = "joinpath")) as [->|Hjoin]; [eauto|].
      rewrite (bool_decide_eq_false_2 (input_wf_name = "joinpath")) by exact Hjoin.
      destruct Htaken as [->|[_ ?]]; [eauto|congruence].
    + rewrite (in_out_workflow_run_without_sessions _ _ _ _ _ _ _ _ Hname Hin).
      unfold duplicate_node.
      destruct Htaken as [->|[[? Hsome] _]]; [eauto|discriminate].
Qed.

(** X12.  A main workflow built by [in_out_workflow] holds, at any depth,
    exactly one file-selection node, [select] inside the input workflow,
    which looks for files in [data_dir], and exactly one result sink,
    [datasink], which stores under [output_dir]; its other nodes are
    [infosrc] and, with sessions, [joinpath].  The paths of its nodes are
    these four, or three, in whatever order they are listed. *)
Theorem main_workflow_nodes work_dir data_dir output_dir file_names session_names
        subject_ids input_wf_name wf_name main_wf :
  in_out_workflow work_dir data_dir output_dir file_names session_names subject_ids
                  input_wf_name wf_name = inr main_wf ->
  exists files substitutions,
    nodes_with_role main_wf is_SelectFiles = [Leaf "select" (SelectFiles files data_dir) []]
    /\ nodes_with_role main_wf is_DataSink
       = [Leaf "datasink" (DataSink false output_dir substitutions) []]
    /\ get_node main_wf (input_wf_name +:+ ".select")
       = Some (Leaf "select" (SelectFiles files data_dir) [])
    /\ get_node main_wf "datasink"
       = Some (Leaf "datasink" (DataSink false output_dir substitutions) [])
    /\ map fst (list_nodes main_wf)
       ≡ₚ app [input_wf_name +:+ ".infosrc"; input_wf_name +:+ ".select"]
             (app match session_names with
                  | Some _ => ["joinpath"]
                  | None => []
                  end
                  ["datasink"]).
Proof.
  intros Hrun.
  destruct (in_out_workflow_inputs _ _ _ _ _ _ _ _ _ Hrun) as (Hname & input_wf & Hin).
  pose proof Hin as Hshape.
  apply subject_session_input_nodes in Hshape as (Hinput & subj_ids & files & ->).
  assert (Hsplit : py_split "."%char (Some 1) (input_wf_name +:+ ".select")
                   = [input_wf_name; "select"]).
  { apply split_once_pair. split; [reflexivity|exact Hinput]. }
  destruct session_names as [sessions|].
  - rewrite (in_out_workflow_run_with_sessions _ _ _ _ _ _ _ _ _ Hname Hin) in Hrun.
    destruct (bool_decide (input_wf_name = "joinpath")); [discriminate|].
    destruct (bool_decide (input_wf_name = "datasink")) eqn:Hsink; [discriminate|].
    apply bool_decide_eq_false in Hsink.
    injection Hrun as <-. eexists files, _.
    split; [reflexivity|]. split; [reflexivity|]. split.
    { cbn [get_node]. rewrite Hsplit. cbn [hd node_name].
      rewrite bool_decide_eq_true_2 by reflexivity. reflexivity. }
    split; [|reflexivity].
    rewrite get_node_plain by reflexivity. cbn [List.find node_name].
    rewrite bool_decide_eq_false_2 by exact Hsink. reflexivity.
  - rewrite (in_out_workflow_run_without_sessions _ _ _ _ _ _ _ _ Hname Hin) in Hrun.
    destruct (bool_decide (input_wf_name = "datasink")) eqn:Hsink; [discriminate|].
    apply bool_decide_eq_false in Hsink.
    injection Hrun as <-. eexists files, _.
    split; [reflexivity|]. split; [reflexivity|]. split.
    { cbn [get_node]. rewrite Hsplit. cbn [hd node_name].
      rewrite bool_decide_eq_true_2 by reflexivity. reflexivity. }
    split; [|reflexivity].
    rewrite get_node_plain by reflexivity. cbn [List.find node_name].
    rewrite bool_decide_eq_false_2 by exact Hsink. reflexivity.
Qed.

End MainWorkflow.

Lemma in_out_workflow_checks_witness :
  (@valid_name sample_engine "main_workflow" = true
   /\ (exists input_wf,
          @subject_session_input sample_engine sample_helpers "/data" (Some ["s0"])
            ["anat_hc.nii.gz"; "diff.nii.gz"] (Some ["S1"; "S2"]) "input_files"
          = inr input_wf)
   /\ "input_files" <> "datasink"
   /\ (is_Some (Some ["s0"]) -> "input_files" <> "joinpath"))
  /\ (exists msg,
         @in_out_workflow sample_engine sample_helpers "/work" "/data" "/out"
                          ["diff.nii.gz"] None (Some ["S1"]) "input_files" ""
         = inl (ValueError msg))
  /\ @in_out_workflow sample_engine sample_helpers "/work" "/nowhere" "/out"
                      ["diff.nii.gz"] None (Some ["S1"]) "input_files" "main_workflow"
     = inl (no_directory "/nowhere")
  /\ exists msg,
       @in_out_workflow sample_engine sample_helpers "/work" "/data" "/out"
                        ["diff.nii.gz"] None (Some ["S1"]) "datasink" "main_workflow"
       = inl (IOError msg).
Proof.
  split; [|split; [|split]].
  - apply (proj1 (@in_out_workflow_checks sample_engine sample_helpers "/work" "/data"
                    "/out" ["anat_hc.nii.gz"; "diff.nii.gz"] (Some ["s0"])
                    (Some ["S1"; "S2"]) "input_files" "main_workflow")
             (workflow_of sample_main_wf)).
    vm_compute. reflexivity.
  - apply (proj1 (proj2 (@in_out_workflow_checks sample_engine sample_helpers "/work"
                           "/data" "/out" ["diff.nii.gz"] None (Some ["S1"])
                           "input_files" ""))).
    reflexivity.
  - apply (proj1 (proj2 (proj2 (@in_out_workflow_checks sample_engine sample_helpers
                                  "/work" "/nowhere" "/out" ["diff.nii.gz"] None
                                  (Some ["S1"]) "input_files" "main_workflow")))).
    + reflexivity.
    + vm_compute. reflexivity.
  - apply (proj2 (proj2 (proj2 (@in_out_workflow_checks sample_engine sample_helpers
                                  "/work" "/data" "/out" ["diff.nii.gz"] None
                                  (Some ["S1"]) "datasink" "main_workflow")))).
    + reflexivity.
    + eexists. vm_compute. reflexivity.
    + left. reflexivity.
Defined.

Lemma main_workflow_nodes_witness :
  exists files substitutions,
    nodes_with_role (workflow_of sample_main_wf) is_SelectFiles
    = [Leaf "select" (SelectFiles files "/data") []]
    /\ nodes_with_role (workflow_of sample_main_wf) is_DataSink
       = [Leaf "datasink" (DataSink false "/out" substitutions) []]
    /\ get_node (workflow_of sample_main_wf) ("input_files" +:+ ".select")
       = Some (Leaf "select" (SelectFiles files "/data") [])
    /\ get_node (workflow_of sample_main_wf) "datasink"
       = Some (Leaf "datasink" (DataSink false "/out" substitutions) [])
    /\ map fst (list_nodes (workflow_of sample_main_wf))
       ≡ₚ app ["input_files" +:+ ".infosrc"; "input_files" +:+ ".select"]
             (app ["joinpath"] ["datasink"]).
Proof.
  apply (@main_workflow_nodes sample_engine sample_helpers "/work" "/data" "/out"
           ["anat_hc.nii.gz"; "diff.nii.gz"] (Some ["s0"]) (Some ["S1"; "S2"])
           "input_files" "main_workflow").
  vm_compute. reflexivity.
Defined.

(** ** The diffusion workflow *)

Section DiffusionWorkflow.
Context `{Engine}.

(** X13.  [fsl_dti_preprocessing] raises [ValueError] for a name that the
    engine refuses.  The workflow it returns bears the name it was given
    and has nine nodes of nine different names; each of its eleven
    connections joins two of these nodes, and no input is fed by two
    connections. *)
Theorem fsl_dti_preprocessing_is_well_formed wf_name :
  (valid_name wf_name = false ->
   exists msg, fsl_dti_preprocessing wf_name = inl (ValueError msg))
  /\ (forall dti_wf,
         fsl_dti_preprocessing wf_name = inr dti_wf ->
         valid_name wf_name = true
         /\ node_name dti_wf = wf_name
         /\ map node_name (nodes_of dti_wf)
            = ["write_acqp"; "eddy"; "extract_b0"; "gunzip_b0"; "coreg_b0"; "brain_sel";
               "brain_split"; "brain_merge"; "dtifit"]
         /\ NoDup (map node_name (nodes_of dti_wf))
         /\ length (connections_of dti_wf) = 11%nat
         /\ NoDup (map fed_input (connections_of dti_wf))
         /\ forall c, c ∈ connections_of dti_wf ->
                      src c ∈ map node_name (nodes_of dti_wf)
                      /\ dst c ∈ map node_name (nodes_of dti_wf)).
Proof.
  rewrite fsl_dti_preprocessing_run. split.
  - intros ->. unfold invalid_name. eauto.
  - intros dti_wf. destruct (valid_name wf_name); [|discriminate]. intros [= <-].
    split; [reflexivity|].
    split; [reflexivity|]. split; [reflexivity|].
    split; [by_evaluation|].
    split; [reflexivity|].
    split; [by_evaluation|].
    apply Forall_forall. cbn [connections_of nodes_of map node_name].
    repeat (apply Forall_cons; split;
            [cbn [src dst]; split; by_evaluation|]).
    apply Forall_nil. exact I.
Qed.

Lemma tc_increases {A} (R : relation A) (rank : A -> nat) :
  (forall x y, R x y -> (rank x < rank y)%nat) ->
  forall x y, tc R x y -> (rank x < rank y)%nat.
Proof.
  intros Hstep x y Hpath. induction Hpath as [x y Hxy|x y z Hxy _ IH].
  - apply Hstep, Hxy.
  - apply Hstep in Hxy. lia.
Qed.

(** X14.  The diffusion workflow has no cycle: following its connections
    from a node never leads back to that node. *)
Theorem fsl_dti_preprocessing_is_acyclic wf_name dti_wf :
  fsl_dti_preprocessing wf_name = inr dti_wf ->
  forall node, ~ tc (feeds dti_wf) node node.
Proof.
  rewrite fsl_dti_preprocessing_run.
  destruct (valid_name wf_name); [|discriminate]. intros [= <-] node Hcycle.
  apply (tc_increases _ dti_rank) in Hcycle; [lia|].
  intros x y (c & Hc & <- & <-). cbn [connections_of] in Hc.
  repeat (apply elem_of_cons in Hc as [-> | Hc]; [vm_compute; lia|]).
  inversion Hc.
Qed.

(** X15.  What the attachment wires to the diffusion workflow exists in it:
    every input it addresses there is a port of a node that
    [fsl_dti_preprocessing] creates and that no connection inside feeds
    already, no such input is addressed twice, every output it takes from
    there is a port of a node that exists, and no input of the datasink is
    addressed twice. *)
Theorem dti_wirings_address_existing_nodes wf_name dti_wf in_files anat_wf datasink :
  fsl_dti_preprocessing wf_name = inr dti_wf ->
  exists from_files from_anat to_datasink,
    dti_wirings in_files anat_wf dti_wf datasink
    = [(in_files, dti_wf, from_files); (anat_wf, dti_wf, from_anat);
       (dti_wf, datasink, to_datasink)]
    /\ Forall (fun port => exists n p, inner_port dti_wf port = Some (n, p)
                                       /\ edge_into dti_wf (node_name n) p = None)
              (map snd (app from_files from_anat))
    /\ NoDup (map snd (app from_files from_anat))
    /\ Forall (fun port => is_Some (inner_port dti_wf port))
              (map (fun p => fst (fst p)) to_datasink)
    /\ NoDup (map snd to_datasink).
Proof.
  rewrite fsl_dti_preprocessing_run.
  destruct (valid_name wf_name); [|discriminate]. intros [= <-].
  eexists _, _, _. split; [reflexivity|]. split; [|split; [|split]].
  - cbn [map app snd].
    repeat (apply Forall_cons; split;
            [eexists _, _; split; vm_compute; reflexivity|]).
    apply Forall_nil. exact I.
  - by_evaluation.
  - cbn [map app fst out].
    repeat (apply Forall_cons; split; [eexists; vm_compute; reflexivity|]).
    apply Forall_nil. exact I.
  - by_evaluation.
Qed.

End DiffusionWorkflow.

Lemma dti_wirings_address_existing_nodes_witness :
  exists from_files from_anat to_datasink,
    dti_wirings sample_bare_wf sample_bare_wf
                (workflow_of (@fsl_dti_preprocessing sample_engine "fsl_dti_preproc")) sample_bare_wf
    = [(sample_bare_wf, workflow_of (@fsl_dti_preprocessing sample_engine "fsl_dti_preproc"), from_files);
       (sample_bare_wf, workflow_of (@fsl_dti_preprocessing sample_engine "fsl_dti_preproc"), from_anat);
       (workflow_of (@fsl_dti_preprocessing sample_engine "fsl_dti_preproc"), sample_bare_wf, to_datasink)]
    /\ Forall (fun port =>
                 exists n p,
                   inner_port (workflow_of (@fsl_dti_preprocessing sample_engine "fsl_dti_preproc")) port
                   = Some (n, p)
                   /\ edge_into (workflow_of (@fsl_dti_preprocessing sample_engine "fsl_dti_preproc"))
                                (node_name n) p = None)
              (map snd (app from_files from_anat))
    /\ NoDup (map snd (app from_files from_anat))
    /\ Forall (fun port =>
                 is_Some (inner_port (workflow_of (@fsl_dti_preprocessing sample_engine "fsl_dti_preproc"))
                                     port))
              (map (fun p => fst (fst p)) to_datasink)
    /\ NoDup (map snd to_datasink).
Proof.
  apply (@dti_wirings_address_existing_nodes sample_engine "fsl_dti_preproc").
  vm_compute. reflexivity.
Defined.

Lemma fsl_dti_preprocessing_is_well_formed_witness :
  (exists msg, @fsl_dti_preprocessing sample_engine "fsl.dti" = inl (ValueError msg))
  /\ @valid_name sample_engine "fsl_dti_preproc" = true
  /\ node_name sample_dti_wf = "fsl_dti_preproc"
  /\ map node_name (nodes_of sample_dti_wf)
     = ["write_acqp"; "eddy"; "extract_b0"; "gunzip_b0"; "coreg_b0"; "brain_sel";
        "brain_split"; "brain_merge"; "dtifit"]
  /\ NoDup (map node_name (nodes_of sample_dti_wf))
  /\ length (connections_of sample_dti_wf) = 11%nat
  /\ NoDup (map fed_input (connections_of sample_dti_wf))
  /\ forall c, c ∈ connections_of sample_dti_wf ->
               src c ∈ map node_name (nodes_of sample_dti_wf)
               /\ dst c ∈ map node_name (nodes_of sample_dti_wf).
Proof.
  split.
  - apply (proj1 (@fsl_dti_preprocessing_is_well_formed sample_engine "fsl.dti")).
    reflexivity.
  - apply (proj2 (@fsl_dti_preprocessing_is_well_formed sample_engine "fsl_dti_preproc")).
    vm_compute. reflexivity.
Defined.

Lemma fsl_dti_preprocessing_is_acyclic_witness :
  @fsl_dti_preprocessing sample_engine "fsl_dti_preproc"
  = inr (workflow_of (@fsl_dti_preprocessing sample_engine "fsl_dti_preproc"))
  /\ forall node,
       ~ tc (feeds (workflow_of (@fsl_dti_preprocessing sample_engine "fsl_dti_preproc"))) node node.
Proof.
  split; [vm_compute; reflexivity|].
  apply (@fsl_dti_preprocessing_is_acyclic sample_engine "fsl_dti_preproc").
  vm_compute. reflexivity.
Defined.

(** ** Wiring the diffusion workflow into a main workflow *)

Lemma add_node_extends nodes n :
  exists extra, add_node nodes n = app nodes extra /\ forall m, m ∈ extra -> m = n.
Proof.
  unfold add_node. destruct (existsb _ nodes).
  - exists []. rewrite app_nil_r. split; [reflexivity|]. intros m Hm. inversion Hm.
  - exists [n]. split; [reflexivity|]. intros m Hm.
    apply list_elem_of_singleton in Hm. exact Hm.
Qed.

(** The nodes a graph gains with its edges are ends of these edges. *)
Lemma with_end_points_extends wirings : forall nodes,
  exists extra,
    with_end_points nodes wirings = app nodes extra
    /\ forall m, m ∈ extra ->
                 exists w, w ∈ wirings /\ (m = fst (fst w) \/ m = snd (fst w)).
Proof.
  induction wirings as [|w rest IH]; intros nodes.
  - exists []. rewrite app_nil_r. split; [reflexivity|]. intros m Hm. inversion Hm.
  - change (with_end_points nodes (w :: rest))
      with (with_end_points (add_node (add_node nodes (fst (fst w))) (snd (fst w))) rest).
    destruct (add_node_extends nodes (fst (fst w))) as (first_end & -> & Hfirst).
    destruct (add_node_extends (app nodes first_end) (snd (fst w))) as (second_end & -> & Hsecond).
    destruct (IH (app (app nodes first_end) second_end)) as (extra & -> & Hextra).
    exists (app (app first_end second_end) extra). split; [rewrite !app_assoc; reflexivity|].
    intros m Hm. apply elem_of_app in Hm as [Hm|Hm].
    + exists w. split; [left|]. apply elem_of_app in Hm as [Hm|Hm].
      * left. apply Hfirst, Hm.
      * right. apply Hsecond, Hm.
    + destruct (Hextra m Hm) as (w' & Hw' & Hends). exists w'. split; [right; exact Hw'|].
      exact Hends.
Qed.

Lemma add_new_extends wf news n :
  exists extra, add_new wf news n = app news extra /\ forall m, m ∈ extra -> m = n.
Proof.
  unfold add_new. destruct (_ || _).
  - exists []. rewrite app_nil_r. split; [reflexivity|]. intros m Hm. inversion Hm.
  - exists [n]. split; [reflexivity|]. intros m Hm.
    apply list_elem_of_singleton in Hm. exact Hm.
Qed.

(** The new nodes of a [connect] are ends of its wirings. *)
Lemma new_nodes_end_points wf wirings m :
  m ∈ new_nodes wf wirings ->
  exists w, w ∈ wirings /\ (m = fst (fst w) \/ m = snd (fst w)).
Proof.
  unfold new_nodes.
  assert (Hfold : forall news,
             exists extra,
               foldl (fun news w => add_new wf (add_new wf news (fst (fst w))) (snd (fst w)))
                     news wirings = app news extra
               /\ forall m, m ∈ extra ->
                            exists w, w ∈ wirings /\ (m = fst (fst w) \/ m = snd (fst w))).
  { induction wirings as [|w rest IH]; intros news.
    - exists []. rewrite app_nil_r. split; [reflexivity|]. intros x Hx. inversion Hx.
    - cbn [foldl].
      destruct (add_new_extends wf news (fst (fst w))) as (first_end & -> & Hfirst).
      destruct (add_new_extends wf (app news first_end) (snd (fst w))) as (second_end & -> & Hsecond).
      destruct (IH (app (app news first_end) second_end)) as (extra & -> & Hextra).
      exists (app (app first_end second_end) extra). split; [rewrite !app_assoc; reflexivity|].
      intros x Hx. apply elem_of_app in Hx as [Hx|Hx].
      + exists w. split; [left|]. apply elem_of_app in Hx as [Hx|Hx].
        * left. apply Hfirst, Hx.
        * right. apply Hsecond, Hx.
      + destruct (Hextra x Hx) as (w' & Hw' & Hends). exists w'.
        split; [right; exact Hw'|exact Hends]. }
  destruct (Hfold []) as (extra & -> & Hextra). cbn [app]. apply Hextra.
Qed.

(** X16.  Wiring the diffusion workflow into a main workflow only adds:
    the main workflow keeps its name, its nodes and its connections; the
    nodes it gains are among the four that are wired, each of which it holds
    from then on; and it gains twenty-one connections, each of which enters
    or leaves the diffusion workflow. *)
Theorem wiring_the_diffusion_workflow_only_adds dti_wf host in_files anat_wf datasink
        attached :
  connect host (dti_wirings in_files anat_wf dti_wf datasink) = inr attached ->
  node_name attached = node_name host
  /\ (exists gained,
         nodes_of attached = app (nodes_of host) gained
         /\ forall n, n ∈ gained -> n ∈ [in_files; anat_wf; dti_wf; datasink])
  /\ has_node attached in_files = true /\ has_node attached anat_wf = true
  /\ has_node attached dti_wf = true /\ has_node attached datasink = true
  /\ (exists added,
         connections_of attached = app (connections_of host) added
         /\ length added = 21%nat
         /\ forall c, c ∈ added ->
                      src c = node_name dti_wf \/ dst c = node_name dti_wf).
Proof.
  intros Hconnect.
  apply connect_result in Hconnect as (name & base_dir & nodes & connections & -> & ->).
  set (host := Workflow name base_dir nodes connections).
  set (wirings := dti_wirings in_files anat_wf dti_wf datasink).
  assert (Hends : forall m,
             (exists w, w ∈ wirings /\ (m = fst (fst w) \/ m = snd (fst w))) ->
             m ∈ [in_files; anat_wf; dti_wf; datasink]).
  { intros m (w & Hw & Hm). subst wirings. unfold dti_wirings in Hw.
    apply elem_of_cons in Hw as [-> | Hw]; [destruct Hm as [-> | ->]; set_solver|].
    apply elem_of_cons in Hw as [-> | Hw]; [destruct Hm as [-> | ->]; set_solver|].
    apply list_elem_of_singleton in Hw as ->. destruct Hm as [-> | ->]; set_solver. }
  split; [reflexivity|]. split.
  { destruct (with_end_points_extends wirings (app nodes (new_nodes host wirings)))
      as (extra & Hextra & Hfrom).
    exists (app (new_nodes host wirings) extra). cbn [nodes_of].
    split; [rewrite Hextra, app_assoc; reflexivity|].
    intros n Hn. apply Hends. apply elem_of_app in Hn as [Hn|Hn].
    - apply (new_nodes_end_points host), Hn.
    - apply Hfrom, Hn. }
  pose proof (with_end_points_holds wirings (app nodes (new_nodes host wirings))
                (in_files, dti_wf, _) (or_introl eq_refl)) as [Hfiles Hdti].
  pose proof (with_end_points_holds wirings (app nodes (new_nodes host wirings))
                (anat_wf, dti_wf, _) (or_intror (or_introl eq_refl))) as [Hanat _].
  pose proof (with_end_points_holds wirings (app nodes (new_nodes host wirings))
                (dti_wf, datasink, _) (or_intror (or_intror (or_introl eq_refl))))
    as [_ Hsink].
  split; [apply has_node_top, Hfiles|]. split; [apply has_node_top, Hanat|].
  split; [apply has_node_top, Hdti|]. split; [apply has_node_top, Hsink|].
  eexists. cbn [connections_of]. split; [reflexivity|]. split; [reflexivity|].
  intros c Hc. subst wirings. unfold dti_wirings, edges_of in Hc.
  cbn [flat_map map fst snd app out] in Hc.
  repeat (apply elem_of_cons in Hc as [-> | Hc]; [cbn [src dst]; auto|]).
  inversion Hc.
Qed.

Lemma wiring_the_diffusion_workflow_only_adds_witness :
  node_name sample_attached_wf = node_name sample_host_wf
  /\ (exists gained,
         nodes_of sample_attached_wf = app (nodes_of sample_host_wf) gained
         /\ forall n, n ∈ gained ->
                      n ∈ [sample_found is_SelectFiles; sample_node "spm_anat_preproc";
                           sample_dti_wf; sample_found is_DataSink])
  /\ has_node sample_attached_wf (sample_found is_SelectFiles) = true
  /\ has_node sample_attached_wf (sample_node "spm_anat_preproc") = true
  /\ has_node sample_attached_wf sample_dti_wf = true
  /\ has_node sample_attached_wf (sample_found is_DataSink) = true
  /\ (exists added,
         connections_of sample_attached_wf = app (connections_of sample_host_wf) added
         /\ length added = 21%nat
         /\ forall c, c ∈ added ->
                      src c = node_name sample_dti_wf \/ dst c = node_name sample_dti_wf).
Proof.
  apply (wiring_the_diffusion_workflow_only_adds sample_dti_wf sample_host_wf
           (sample_found is_SelectFiles) (sample_node "spm_anat_preproc")
           (sample_found is_DataSink)).
  vm_compute. reflexivity.
Defined.

(** ** run_wf: the three calls *)

(** X17.  The call with a plugin and its keyword arguments is made only for
    a plugin that has a name, other than [MultiProc], with [n_cpus > 1], and
    it passes the plugin and the keyword arguments as they were given; the
    plain call is made exactly when [n_cpus <= 1] or the plugin is [None] or
    empty.  So [wf.run] never receives an empty plugin, and the keyword
    arguments are dropped in the two other calls. *)
Theorem run_wf_calls (plugin : option string) (n_cpus : Z)
  (plugin_kwargs : list (string * string)) :
  (forall p kwargs,
      run_wf plugin n_cpus plugin_kwargs = RunPlugin p kwargs
      <-> p = plugin /\ kwargs = plugin_kwargs /\ (1 < n_cpus)%Z
          /\ exists name, plugin = Some name /\ name <> "" /\ name <> "MultiProc")
  /\ (run_wf plugin n_cpus plugin_kwargs = RunDefault
      <-> (n_cpus <= 1)%Z \/ plugin = None \/ plugin = Some "").
Proof.
  unfold run_wf.
  destruct (Z.ltb_spec 1 n_cpus) as [Hn|Hn], (Z.leb_spec n_cpus 1) as [Hn'|Hn'];
    try lia.
  - destruct plugin as [[|c name]|]; cbn [py_not nonempty negb orb andb].
    + rewrite !bool_decide_eq_false_2 by discriminate. cbn [andb orb]. split.
      * intros p kwargs. split; [discriminate|].
        intros (_ & _ & _ & name & [= <-] & Hne & _). contradiction.
      * split; auto.
    + rewrite (bool_decide_eq_false_2 (Some (String c name) = None)) by discriminate.
      rewrite andb_true_r. cbn [orb].
      destruct (decide (String c name = "MultiProc")) as [Hmp|Hmp].
      * rewrite bool_decide_eq_true_2 by congruence. split.
        -- intros p kwargs. split; [discriminate|].
           intros (_ & _ & _ & name' & [= <-] & _ & Hne). contradiction.
        -- split; [discriminate|]. intros [?|[?|?]]; [lia|discriminate|discriminate].
      * rewrite bool_decide_eq_false_2 by congruence. split.
        -- intros p kwargs. split.
           ++ intros [= <- <-]. repeat split; [exact Hn|].
              exists (String c name). repeat split; [discriminate|exact Hmp].
           ++ intros (-> & -> & _). reflexivity.
        -- split; [discriminate|]. intros [?|[?|?]]; [lia|discriminate|discriminate].
    + rewrite bool_decide_eq_false_2 by discriminate. cbn [andb orb]. split.
      * intros p kwargs. split; [discriminate|].
        intros (_ & _ & _ & name & Hname & _). discriminate.
      * split; auto.
  - rewrite andb_false_r, orb_true_r. split.
    + intros p kwargs. split; [discriminate|]. intros (_ & _ & ? & _). lia.
    + split; auto.
Qed.

Lemma run_wf_calls_witness :
  run_wf (Some "Linear") 3 [("updatehash", "True")]
  = RunPlugin (Some "Linear") [("updatehash", "True")]
  /\ run_wf (Some "") 3 [("updatehash", "True")] = RunDefault.
Proof.
  split.
  - apply (proj1 (run_wf_calls (Some "Linear") 3 [("updatehash", "True")])).
    repeat split. exists "Linear". repeat split; discriminate.
  - apply (proj2 (run_wf_calls (Some "") 3 [("updatehash", "True")])). auto.
Defined.

(** ** The main workflow: its connections *)

Section MainConnections.
Context `{Engine} `{Helpers}.

(** X18.  In a main workflow built by [in_out_workflow] the only input of
    the datasink that is fed is [container], so every other input is free
    for the workflows attached later; nothing is fed by the datasink; and the
    connections make no cycle. *)
Theorem main_workflow_connections work_dir data_dir output_dir file_names session_names
        subject_ids input_wf_name wf_name main_wf :
  in_out_workflow work_dir data_dir output_dir file_names session_names subject_ids
                  input_wf_name wf_name = inr main_wf ->
  (forall port, is_Some (edge_into main_wf "datasink" port) <-> port = "container")
  /\ (forall node, ~ feeds main_wf "datasink" node)
  /\ (forall node, ~ tc (feeds main_wf) node node).
Proof.
  intros Hrun.
  assert (Hshape : exists nodes,
             input_wf_name <> "datasink"
             /\ (main_wf = Workflow wf_name (Some work_dir) nodes
                   [mkConnection input_wf_name "infosrc.subject_id" None "datasink"
                                 "container"]
                 \/ (input_wf_name <> "joinpath"
                     /\ main_wf = Workflow wf_name (Some work_dir) nodes
                          [mkConnection input_wf_name "infosrc.subject_id" None
                                        "joinpath" "arg1";
                           mkConnection input_wf_name "infosrc.session_id" None
                                        "joinpath" "arg2";
                           mkConnection "joinpath" "out" None "datasink" "container"]))).
  { destruct session_names as [sessions|].
    - apply in_out_workflow_with_sessions in Hrun
        as (_ & Hjoin & Hsink & subj_ids & files & sink & ->).
      eexists. split; [exact Hsink|]. right. split; [exact Hjoin|reflexivity].
    - apply in_out_workflow_without_sessions in Hrun
        as (_ & Hsink & subj_ids & files & sink & ->).
      eexists. split; [exact Hsink|]. left. reflexivity. }
  destruct Hshape as (nodes & Hsink & [-> | [Hjoin ->]]).
  - split; [|split].
    + intros port. unfold edge_into. cbn [connections_of List.find dst dst_port].
      rewrite (bool_decide_eq_true_2 ("datasink" = "datasink")) by reflexivity.
      cbn [andb]. destruct (decide ("container" = port)) as [<-|Hport].
      * rewrite bool_decide_eq_true_2 by reflexivity. split; eauto.
      * rewrite bool_decide_eq_false_2 by exact Hport.
        split; [intros [? ?]; discriminate|congruence].
    + intros node (c & Hc & Hsrc & _). cbn [connections_of] in Hc.
      apply list_elem_of_singleton in Hc as ->. cbn in Hsrc. congruence.
    + intros node Hcycle.
      apply (tc_increases _ (fun n => if bool_decide (n = "datasink") then 1 else 0)%nat)
        in Hcycle; [lia|].
      intros x y (c & Hc & <- & <-). cbn [connections_of] in Hc.
      apply list_elem_of_singleton in Hc as ->. cbn [src dst].
      rewrite bool_decide_eq_false_2 by exact Hsink.
      rewrite bool_decide_eq_true_2 by reflexivity. lia.
  - split; [|split].
    + intros port. unfold edge_into. cbn [connections_of List.find dst dst_port].
      rewrite !(bool_decide_eq_false_2 ("joinpath" = "datasink")) by discriminate.
      rewrite (bool_decide_eq_true_2 ("datasink" = "datasink")) by reflexivity.
      cbn [andb]. destruct (decide ("container" = port)) as [<-|Hport].
      * rewrite bool_decide_eq_true_2 by reflexivity. split; eauto.
      * rewrite bool_decide_eq_false_2 by exact Hport.
        split; [intros [? ?]; discriminate|congruence].
    + intros node (c & Hc & Hsrc & _). cbn [connections_of] in Hc.
      repeat (apply elem_of_cons in Hc as [->|Hc]; [cbn in Hsrc; congruence|]).
      inversion Hc.
    + intros node Hcycle.
      apply (tc_increases _ (fun n => if bool_decide (n = "datasink") then 2
                                      else if bool_decide (n = "joinpath") then 1
                                      else 0)%nat)
        in Hcycle; [lia|].
      intros x y (c & Hc & <- & <-). cbn [connections_of] in Hc.
      repeat (apply elem_of_cons in Hc as [->|Hc];
              [cbn [src dst];
               rewrite ?(bool_decide_eq_false_2 (input_wf_name = "datasink")) by exact Hsink;
               rewrite ?(bool_decide_eq_false_2 (input_wf_name = "joinpath")) by exact Hjoin;
               rewrite ?(bool_decide_eq_false_2 ("joinpath" = "datasink")) by discriminate;
               rewrite ?bool_decide_eq_true_2 by reflexivity; lia|]).
      inversion Hc.
Qed.

End MainConnections.

Lemma main_workflow_connections_witness :
  (forall port,
      is_Some (edge_into (workflow_of sample_main_wf) "datasink" port)
      <-> port = "container")
  /\ (forall node, ~ feeds (workflow_of sample_main_wf) "datasink" node)
  /\ (forall node, ~ tc (feeds (workflow_of sample_main_wf)) node node).
Proof.
  apply (@main_workflow_connections sample_engine sample_helpers "/work" "/data" "/out"
           ["anat_hc.nii.gz"; "diff.nii.gz"] (Some ["s0"]) (Some ["S1"; "S2"])
           "input_files" "main_workflow").
  vm_compute. reflexivity.
Defined.

(** ** write_acquisition_parameters: what each file depends on *)

Section Dependence.
Context `{PyRuntime}.

(** X19.  The line of [diff.acqp] depends on the annotation of the image
    only, and the line of [diff.index] on its last dimension only: two
    images with the same annotation get the same [diff.acqp], whatever their
    shapes, and two images with the same number of volumes get the same
    [diff.index], whatever their metadata, as long as both are accepted. *)
Theorem files_depend_on_their_own_input in_file in_file' image image' fs fs1 fs' fs1'
        paths paths' :
  nibabel_load in_file = inr image -> nibabel_load in_file' = inr image' ->
  write_acquisition_parameters in_file fs = (fs1, inr paths) ->
  write_acquisition_parameters in_file' fs' = (fs1', inr paths') ->
  (descrip image = descrip image' -> fs1 !! "diff.acqp" = fs1' !! "diff.acqp")
  /\ (shape_last image = shape_last image' -> fs1 !! "diff.index" = fs1' !! "diff.index").
Proof.
  intros Hload Hload'.
  rewrite (write_acquisition_parameters_run _ _ _ Hload).
  rewrite (write_acquisition_parameters_run _ _ _ Hload').
  destruct (parse_descrip (descrip image)) as [e|d] eqn:Hd; [discriminate|].
  destruct (phase_encoding_axis d) as [e|pe] eqn:Hpe; [discriminate|].
  destruct (total_readout_time d) as [e|trt] eqn:Htrt; [discriminate|].
  destruct (parse_descrip (descrip image')) as [e|d'] eqn:Hd'; [discriminate|].
  destruct (phase_encoding_axis d') as [e|pe'] eqn:Hpe'; [discriminate|].
  destruct (total_readout_time d') as [e|trt'] eqn:Htrt'; [discriminate|].
  intros [= <- _] [= <- _]. unfold index_file, acqp_file. split.
  - intros Hsame. rewrite <- Hsame, Hd in Hd'. injection Hd' as <-.
    rewrite Hpe in Hpe'. injection Hpe' as <-.
    rewrite Htrt in Htrt'. injection Htrt' as <-.
    rewrite !(lookup_insert_ne _ "diff.index") by discriminate.
    rewrite !lookup_insert_eq. reflexivity.
  - intros ->. rewrite !lookup_insert_eq. reflexivity.
Qed.

End Dependence.

Lemma files_depend_on_their_own_input_witness :
  ("phaseDir=+;dwell=0.39" = "phaseDir=+;dwell=0.39" ->
   fst (@write_acquisition_parameters wide_runtime "dwi.nii.gz" ∅) !! "diff.acqp"
   = fst (@write_acquisition_parameters wide_runtime "dwi64.nii.gz"
            (<["diff.acqp" := "old"]> ∅)) !! "diff.acqp")
  /\ (30%nat = 64%nat ->
      fst (@write_acquisition_parameters wide_runtime "dwi.nii.gz" ∅) !! "diff.index"
      = fst (@write_acquisition_parameters wide_runtime "dwi64.nii.gz"
               (<["diff.acqp" := "old"]> ∅)) !! "diff.index").
Proof.
  apply (@files_depend_on_their_own_input wide_runtime "dwi.nii.gz" "dwi64.nii.gz"
           (mkImage [96; 96; 60] 30 "phaseDir=+;dwell=0.39")
           (mkImage [128; 128; 70] 64 "phaseDir=+;dwell=0.39")
           ∅ _ (<["diff.acqp" := "old"]> ∅) _
           ("/work/diff.acqp", "/work/diff.index") ("/work/diff.acqp", "/work/diff.index")).
  - reflexivity.
  - reflexivity.
  - vm_compute. reflexivity.
  - vm_compute. reflexivity.
Defined.
